(** * next-themes: a shallow embedding of [src/index.tsx]

    The library keeps a colour-theme preference in [localStorage], resolves
    the [system] preference through the [(prefers-color-scheme: dark)] media
    query, and writes the result on [document.documentElement], once from an
    inline script emitted by [ThemeScript] and afterwards from [applyTheme].

    JavaScript strings are modelled as [string] (the code only inspects ASCII
    prefixes, so byte offsets and UTF-16 offsets coincide on what it looks
    at); [null] and [undefined] of a [string | null | undefined] value are
    both [None]; [localStorage] and the element's attributes are [gmap]s;
    [classList] is the ordered token list of the DOM; exceptions are explicit
    ([completion], [outcome]). *)

From Stdlib Require Import Ascii String.
From stdpp Require Import base option list gmap strings.

(** ** JavaScript values and string methods *)

Module JS.

(** Result of an operation that may throw. *)
Inductive completion (A : Type) : Type :=
| Normal (a : A)
| Throw.
Arguments Normal {A} a.
Arguments Throw {A}.

(** Truthiness of a string: every string but the empty one. *)
Definition truthy (s : string) : bool := negb (String.eqb s "").

(** Truthiness of a [string | null | undefined]. *)
Definition truthy_opt (o : option string) : bool :=
  match o with
  | Some s => truthy s
  | None => false
  end.

(** [a || b] on [string | null | undefined]. *)
Definition or (a b : option string) : option string :=
  if truthy_opt a then a else b.

(** [a || b] where [b] is a string. *)
Definition or_string (a : option string) (b : string) : string :=
  match a with
  | Some s => if truthy s then s else b
  | None => b
  end.

(** [s.startsWith(p)] *)
Definition startsWith (s p : string) : bool := String.prefix p s.

(** [s.substring(n)] *)
Fixpoint substring (n : nat) (s : string) : string :=
  match n, s with
  | O, _ => s
  | S n', String _ s' => substring n' s'
  | S _, EmptyString => EmptyString
  end.

(** [s.indexOf(c)] for a one-character needle; [None] is [-1]. *)
Fixpoint indexOf (c : ascii) (s : string) : option nat :=
  match s with
  | EmptyString => None
  | String a s' => if Ascii.eqb a c then Some O else S <$> indexOf c s'
  end.

(** [s.substring(i)] for an index that may be [-1]: negative arguments are
    clamped to [0]. *)
Definition substring_at (i : option nat) (s : string) : string :=
  match i with
  | Some n => substring n s
  | None => s
  end.

(** [l.includes(x)] on an array of strings. *)
Definition includes (l : list string) (x : string) : bool :=
  existsb (String.eqb x) l.

(** [l.join(sep)] *)
Definition join (sep : string) (l : list string) : string :=
  String.concat sep l.

End JS.

Import JS.

(** ** The browser environment *)

(** [window.localStorage].  [denied] stands for a storage whose every access
    throws (storage disabled or access denied), [full] for a storage that
    rejects the write at hand (quota exceeded).  A real quota depends on the
    value written, so [full] describes one write: a property about several
    writes assumes [full = false], a storage that accepts them all. *)
Record Storage : Type := {
  items : gmap string string;
  denied : bool;
  full : bool
}.

Definition getItem (st : Storage) (key : string) : completion (option string) :=
  if denied st then Throw else Normal (items st !! key).

Definition setItem (st : Storage) (key val : string) : completion Storage :=
  if denied st || full st then Throw
  else Normal {| items := <[key := val]> (items st);
                 denied := denied st; full := full st |}.

(** A [MediaQueryList] (or [MediaQueryListEvent]): the serialized query and
    whether it matches. *)
Record MediaQueryList : Type := {
  mq_media : string;
  matches : bool
}.

(** [document.documentElement] and the part of [document.head] the library
    touches: the class tokens, the attributes other than [class] and
    [style] under the names the code passes, the [color-scheme] style
    property ([None] when it is not set), and the style elements appended to
    the head. *)
Record Dom : Type := {
  classList : list string;
  attributes : gmap string string;
  colorScheme : option string;
  headStyles : list string
}.

(** Deferred work registered with [setTimeout]. *)
Inductive Timer : Type :=
| RemoveHeadStyle (css : string).

Record World : Type := {
  storage : Storage;
  media : MediaQueryList;
  document : Dom;
  timers : list Timer
}.

Definition with_document (w : World) (d : Dom) : World :=
  {| storage := storage w; media := media w; document := d; timers := timers w |}.

Definition with_storage (w : World) (st : Storage) : World :=
  {| storage := st; media := media w; document := document w; timers := timers w |}.

(** *** DOMTokenList *)

Definition is_ascii_whitespace (c : ascii) : bool :=
  let n := nat_of_ascii c in
  Nat.eqb n 9 || Nat.eqb n 10 || Nat.eqb n 12 || Nat.eqb n 13 || Nat.eqb n 32.

Fixpoint has_whitespace (s : string) : bool :=
  match s with
  | EmptyString => false
  | String c s' => is_ascii_whitespace c || has_whitespace s'
  end.

(** A token is accepted by [add] and [remove] when it is not empty
    (SyntaxError) and holds no ASCII whitespace (InvalidCharacterError). *)
Definition valid_token (s : string) : bool :=
  truthy s && negb (has_whitespace s).

(** [classList.remove(...tokens)]: all tokens are validated before any is
    removed. *)
Definition classList_remove (tokens : list string) (cl : list string)
  : completion (list string) :=
  if forallb valid_token tokens
  then Normal (List.filter (fun c => negb (includes tokens c)) cl)
  else Throw.

(** [classList.add(token)] *)
Definition classList_add (token : string) (cl : list string)
  : completion (list string) :=
  if valid_token token
  then Normal (if includes cl token then cl else cl ++ [token])
  else Throw.

Definition set_classList (d : Dom) (cl : list string) : Dom :=
  {| classList := cl; attributes := attributes d;
     colorScheme := colorScheme d; headStyles := headStyles d |}.

(** [d.setAttribute(n, v)] for a name the element accepts and keeps as it
    is ([plain_attribute] below): other names make the real method throw
    InvalidCharacterError, are lower-cased by an HTML element, or are
    reflected by [classList] ([class]) and by [style].  The properties that
    depend on the write carry [plain_attribute] as a hypothesis. *)
Definition setAttribute (n v : string) (d : Dom) : Dom :=
  {| classList := classList d; attributes := <[n := v]> (attributes d);
     colorScheme := colorScheme d; headStyles := headStyles d |}.

(** [d.removeAttribute(n)] *)
Definition removeAttribute (n : string) (d : Dom) : Dom :=
  {| classList := classList d; attributes := delete n (attributes d);
     colorScheme := colorScheme d; headStyles := headStyles d |}.

(** [d.style.colorScheme = v]; assigning [null] clears the property. *)
Definition set_colorScheme (v : option string) (d : Dom) : Dom :=
  {| classList := classList d; attributes := attributes d;
     colorScheme := v; headStyles := headStyles d |}.

(** ** Constants of the module *)

Definition colorSchemes : list string := ["light"; "dark"].
Definition MEDIA : string := "(prefers-color-scheme: dark)".
Definition defaultThemes : list string := ["light"; "dark"].

(** ** Helpers *)

(** [getSystemTheme(e)]: without an argument the media query is evaluated
    on the spot. *)
Definition getSystemTheme (w : World) (e : option MediaQueryList) : string :=
  let e := match e with Some e => e | None => media w end in
  let isDark := matches e in
  let systemTheme := if isDark then "dark" else "light" in
  systemTheme.

Definition getTheme (isServer : bool) (w : World) (key : string)
    (fallback : option string) : option string :=
  if isServer then None
  else
    let theme :=
      match getItem (storage w) key with
      | Normal v => JS.or v None
      | Throw => None
      end in
    JS.or theme fallback.

Definition getResolvedTheme (isServer : bool) (w : World) (key : string)
    (fallback : option string) (enableMultipleSystemThemes : bool)
  : option string :=
  match getTheme isServer w key fallback with
  | None => None
  | Some theme =>
      if negb (truthy theme) then None
      else if String.eqb theme "system" then Some (getSystemTheme w None)
      else if enableMultipleSystemThemes && startsWith theme "system-"
      then Some (getSystemTheme w None +:+ JS.substring 6 theme)
      else Some theme
  end.

Definition getColorScheme (theme : string) (fallback : option string)
  : option string :=
  if String.eqb theme "light" || startsWith theme "light-" then Some "light"
  else if String.eqb theme "dark" || startsWith theme "dark-" then Some "dark"
  else if includes colorSchemes theme then Some theme else fallback.

(** ** Props *)

(** The [value] prop: an object from theme names to attribute values, kept
    as the list of its own properties in enumeration order (what
    [Object.values] and [JSON.stringify] walk through).  [value[k]] is the
    first binding of [k].  A lookup on a JavaScript object also finds the
    members of [Object.prototype] ([prototype_members] below): the
    properties that depend on a lookup that may miss carry [own_lookup] as
    a hypothesis. *)
Definition ValueMap : Type := list (string * string).

Fixpoint value_get (v : ValueMap) (k : string) : option string :=
  match v with
  | [] => None
  | (k', x) :: v' => if String.eqb k' k then Some x else value_get v' k
  end.

(** [Object.values(value)] *)
Definition Object_values (v : ValueMap) : list string := map snd v.

(** Modelled from the spec: the declaration of [ThemeProviderProps] is in
    [./types], which is not among the sources.  The fields are the props
    [Theme] destructures, each of them optional as its default shows;
    [children] is kept in the element tree ([ThemeProvider] below). *)
Record ThemeProviderProps : Type := {
  p_forcedTheme : option string;
  p_disableTransitionOnChange : option bool;
  p_enableSystem : option bool;
  p_enableMultipleSystemThemes : option bool;
  p_enableColorScheme : option bool;
  p_storageKey : option string;
  p_themes : option (list string);
  p_defaultTheme : option string;
  p_attribute : option string;
  p_value : option ValueMap;
  p_nonce : option string
}.

(** The props once [Theme] has destructured them with their defaults. *)
Record Props : Type := {
  forcedTheme : option string;
  disableTransitionOnChange : bool;
  enableSystem : bool;
  enableMultipleSystemThemes : bool;
  enableColorScheme : bool;
  storageKey : string;
  themes : list string;
  defaultTheme : string;
  attribute : string;
  value : option ValueMap;
  nonce : option string
}.

Definition destructure (p : ThemeProviderProps) : Props :=
  let enableSystem := default true (p_enableSystem p) in
  {| forcedTheme := p_forcedTheme p;
     disableTransitionOnChange := default false (p_disableTransitionOnChange p);
     enableSystem := enableSystem;
     enableMultipleSystemThemes := default false (p_enableMultipleSystemThemes p);
     enableColorScheme := default true (p_enableColorScheme p);
     storageKey := default "theme" (p_storageKey p);
     themes := default defaultThemes (p_themes p);
     defaultTheme :=
       default (if enableSystem then "system" else "light") (p_defaultTheme p);
     attribute := default "data-theme" (p_attribute p);
     value := p_value p;
     nonce := p_nonce p |}.

(** ** The [Theme] component *)

(** Result of a callback that works on the world: where it stopped, and
    whether it stopped on an exception. *)
Inductive outcome (A : Type) : Type :=
| Done (a : A)
| Thrown (a : A).
Arguments Done {A} a.
Arguments Thrown {A} a.

Definition outcome_state {A} (o : outcome A) : A :=
  match o with
  | Done a => a
  | Thrown a => a
  end.

(** The two [useState] cells of [Theme]. *)
Record ThemeState : Type := {
  theme : option string;
  resolvedTheme : option string
}.

(** A mounted [Theme]: its state cells and the browser around it. *)
Record App : Type := {
  state : ThemeState;
  world : World
}.

Definition transition_css : string :=
  "*{-webkit-transition:none!important;-moz-transition:none!important;-o-transition:none!important;-ms-transition:none!important;transition:none!important}".

(** [disableAnimation()] appends the style element to the head; the function
    it returns is [enableAnimation]. *)
Definition disableAnimation (w : World) : World :=
  let d := document w in
  with_document w
    {| classList := classList d; attributes := attributes d;
       colorScheme := colorScheme d;
       headStyles := headStyles d ++ [transition_css] |}.

Definition enableAnimation (w : World) : World :=
  {| storage := storage w; media := media w; document := document w;
     timers := timers w ++ [RemoveHeadStyle transition_css] |}.

Fixpoint remove_first (x : string) (l : list string) : list string :=
  match l with
  | [] => []
  | y :: l' => if String.eqb y x then l' else y :: remove_first x l'
  end.

(** The body of a timer when it fires. *)
Definition run_timer (t : Timer) (w : World) : World :=
  match t with
  | RemoveHeadStyle css =>
      let d := document w in
      with_document w
        {| classList := classList d; attributes := attributes d;
           colorScheme := colorScheme d;
           headStyles := remove_first css (headStyles d) |}
  end.

(** A [StorageEvent]: [key] and [newValue] are [null] on [clear()], and
    [newValue] on removal. *)
Record StorageEvent : Type := {
  key : option string;
  newValue : option string
}.

Section Theme.

Variable isServer : bool.
Variable props : Props.

Definition initialState (w : World) : ThemeState :=
  {| theme := getTheme isServer w (storageKey props) (Some (defaultTheme props));
     resolvedTheme :=
       getResolvedTheme isServer w (storageKey props)
         (Some (defaultTheme props)) (enableMultipleSystemThemes props) |}.

Definition defaultColorScheme : option string :=
  getColorScheme (defaultTheme props) None.

Definition attrs : list string :=
  match value props with
  | Some v => Object_values v
  | None => themes props
  end.

(** The theme [applyTheme] writes for a non-empty [theme]. *)
Definition resolve (w : World) (theme : string) : string :=
  if enableSystem props then
    if String.eqb theme "system" then getSystemTheme w None
    else if enableMultipleSystemThemes props && startsWith theme "system-"
    then getSystemTheme w None +:+ JS.substring 6 theme
    else theme
  else theme.

(** [value ? value[resolved] : resolved] *)
Definition attr_name (resolved : string) : option string :=
  match value props with
  | Some v => value_get v resolved
  | None => Some resolved
  end.

(** The class or attribute write of [applyTheme].  [classList.remove]
    validates its tokens before it removes any, and a throwing
    [classList.add] comes after the removal. *)
Definition write_name (name : option string) (d : Dom) : outcome Dom :=
  if String.eqb (attribute props) "class" then
    match classList_remove attrs (classList d) with
    | Throw => Thrown d
    | Normal cl =>
        let d := set_classList d cl in
        if truthy_opt name then
          match classList_add (default "" name) (classList d) with
          | Throw => Thrown d
          | Normal cl' => Done (set_classList d cl')
          end
        else Done d
    end
  else
    if truthy_opt name
    then Done (setAttribute (attribute props) (default "" name) d)
    else Done (removeAttribute (attribute props) d).

Definition applyTheme (theme : option string) (w : World) : outcome World :=
  if negb (truthy_opt theme) then Done w
  else
    let theme := default "" theme in
    let resolved := resolve w theme in
    let name := attr_name resolved in
    let w := if disableTransitionOnChange props then disableAnimation w else w in
    match write_name name (document w) with
    | Thrown d => Thrown (with_document w d)
    | Done d =>
        let d :=
          if enableColorScheme props
          then set_colorScheme (getColorScheme resolved defaultColorScheme) d
          else d in
        let w := with_document w d in
        Done (if disableTransitionOnChange props then enableAnimation w else w)
    end.

Definition setThemeState (t : string) (a : App) : App :=
  {| state := {| theme := Some t; resolvedTheme := resolvedTheme (state a) |};
     world := world a |}.

Definition setResolvedTheme (t : string) (a : App) : App :=
  {| state := {| theme := theme (state a); resolvedTheme := Some t |};
     world := world a |}.

Definition setTheme (t : string) (a : App) : App :=
  let a := setThemeState t a in
  match setItem (storage (world a)) (storageKey props) t with
  | Normal st => {| state := state a; world := with_storage (world a) st |}
  | Throw => a
  end.

(** [theme?.startsWith('system-')] on the state's theme *)
Definition theme_startsWith_system (t : option string) : bool :=
  match t with
  | Some s => startsWith s "system-"
  | None => false
  end.

Definition theme_is (t : option string) (s : string) : bool :=
  match t with
  | Some x => String.eqb x s
  | None => false
  end.

Definition handleMediaQuery (e : MediaQueryList) (a : App) : outcome App :=
  let t := theme (state a) in
  let systemTheme := getSystemTheme (world a) (Some e) in
  let resolved :=
    if enableMultipleSystemThemes props && theme_startsWith_system t
    then getSystemTheme (world a) None +:+ JS.substring 6 (default "" t)
    else systemTheme in
  let a := setResolvedTheme resolved a in
  if negb (truthy_opt (forcedTheme props)) && enableSystem props &&
     (theme_is t "system" ||
      (enableMultipleSystemThemes props && theme_startsWith_system t))
  then
    match applyTheme t (world a) with
    | Done w => Done {| state := state a; world := w |}
    | Thrown w => Thrown {| state := state a; world := w |}
    end
  else Done a.

Definition handleStorage (e : StorageEvent) (a : App) : App :=
  if negb (bool_decide (key e = Some (storageKey props))) then a
  else
    let theme := or_string (newValue e) (defaultTheme props) in
    setTheme theme a.

(** The effect on [forcedTheme] and [theme]: [applyTheme(forcedTheme ?? theme)] *)
Definition themeEffect (a : App) : outcome App :=
  let t := match forcedTheme props with
           | Some f => Some f
           | None => theme (state a)
           end in
  match applyTheme t (world a) with
  | Done w => Done {| state := state a; world := w |}
  | Thrown w => Thrown {| state := state a; world := w |}
  end.

End Theme.

(** ** [providerThemes] *)

(** [new Set(...)], [Set.prototype.add] and [Array.from(set)]: a set keeps
    its elements in insertion order. *)
Definition Set_add (x : string) (s : list string) : list string :=
  if includes s x then s else s ++ [x].

Definition Set_new (l : list string) : list string :=
  fold_left (fun s x => Set_add x s) l [].

(** An entry [{ light?: boolean; dark?: boolean }]; a missing field counts
    as [false], the code only tests it for truth. *)
Record SystemPair : Type := {
  light : bool;
  dark : bool
}.

(** [maybeSystemThemes]: the keys are [''] or start with [-], so none is an
    array index and [Object.entries] lists them in insertion order. *)
Definition SystemRecord : Type := list (string * SystemPair).

Fixpoint record_get (m : SystemRecord) (k : string) : option SystemPair :=
  match m with
  | [] => None
  | (k', v) :: m' => if String.eqb k' k then Some v else record_get m' k
  end.

(** In-place update of the object stored under [k]. *)
Fixpoint record_alter (f : SystemPair → SystemPair) (k : string)
    (m : SystemRecord) : SystemRecord :=
  match m with
  | [] => []
  | (k', v) :: m' =>
      if String.eqb k' k then (k', f v) :: m'
      else (k', v) :: record_alter f k m'
  end.

Definition dash : ascii := ascii_of_nat 45.

(** The [key] computed for one theme of the loop; [None] is [continue]. *)
Definition theme_key (theme : string) : option string :=
  let key := None in
  let key :=
    if String.eqb theme "light" || String.eqb theme "dark" then Some "" else key in
  let key :=
    if startsWith theme "light-" || startsWith theme "dark-"
    then Some (substring_at (indexOf dash theme) theme) else key in
  key.

(** One iteration of [for (const theme of themes)]. *)
Definition note_theme (m : SystemRecord) (theme : string) : SystemRecord :=
  match theme_key theme with
  | None => m
  | Some key =>
      let m :=
        match record_get m key with
        | Some _ => m
        | None => m ++ [(key, {| light := false; dark := false |})]
        end in
      let m :=
        if String.eqb theme "light" || startsWith theme "light-"
        then record_alter (fun v => {| light := true; dark := dark v |}) key m
        else m in
      let m :=
        if String.eqb theme "dark" || startsWith theme "dark-"
        then record_alter (fun v => {| light := light v; dark := true |}) key m
        else m in
      m
  end.

Definition providerThemes (props : Props) : list string :=
  if negb (enableSystem props) then themes props
  else
    let themeSet := Set_new (themes props) in
    let themeSet := Set_add "system" themeSet in
    let themeSet :=
      if enableMultipleSystemThemes props then
        let maybeSystemThemes := fold_left note_theme (themes props) [] in
        let systemThemes :=
          map fst (List.filter (fun kv => light (snd kv) && dark (snd kv))
                     maybeSystemThemes) in
        fold_left (fun s systemTheme => Set_add ("system" +:+ systemTheme) s)
          systemThemes themeSet
      else themeSet in
    themeSet.

(** ** [ThemeScript]: the text of the inline script *)

Definition dquote : string := String (ascii_of_nat 34) "".

Definition hex_digit (n : nat) : string :=
  String (ascii_of_nat (if Nat.ltb n 10 then 48 + n else 87 + n)) "".

(** [QuoteJSONString] on one character. *)
Definition json_escape (c : ascii) : string :=
  let n := nat_of_ascii c in
  if Nat.eqb n 8 then "\b"
  else if Nat.eqb n 9 then "\t"
  else if Nat.eqb n 10 then "\n"
  else if Nat.eqb n 12 then "\f"
  else if Nat.eqb n 13 then "\r"
  else if Nat.eqb n 34 then "\" +:+ dquote
  else if Nat.eqb n 92 then "\\"
  else if Nat.ltb n 32 then "\u00" +:+ hex_digit (n / 16) +:+ hex_digit (n mod 16)
  else String c "".

Fixpoint json_escape_string (s : string) : string :=
  match s with
  | EmptyString => ""
  | String c s' => json_escape c +:+ json_escape_string s'
  end.

Definition json_quote (s : string) : string :=
  dquote +:+ json_escape_string s +:+ dquote.

(** [JSON.stringify(value)] for an object whose values are strings. *)
Definition JSON_stringify (v : ValueMap) : string :=
  "{" +:+ join "," (map (fun kv => json_quote (fst kv) +:+ ":" +:+ json_quote (snd kv)) v)
      +:+ "}".

(** A template literal prints [undefined] for a missing value. *)
Definition template (o : option string) : string := default "undefined" o.

Definition bool_text (b : bool) : string := if b then "true" else "false".

Section ThemeScript.

Variable props : Props.
(** [attrs] is handed down by [Theme]. *)
Variable attrs : list string.

Definition defaultSystem : bool := String.eqb (defaultTheme props) "system".

Definition optimization : string :=
  if String.eqb (attribute props) "class" then
    let removeClasses :=
      "c.remove(" +:+ join "," (map (fun t => "'" +:+ t +:+ "'") attrs) +:+ ")" in
    "var d=document.documentElement,c=d.classList;" +:+ removeClasses +:+ ";"
  else
    "var d=document.documentElement,n='" +:+ attribute props +:+ "',s='setAttribute';".

Definition fallbackColorScheme : string :=
  if negb (enableColorScheme props) then ""
  else
    let fallback :=
      if includes colorSchemes (defaultTheme props)
      then Some (defaultTheme props) else None in
    if truthy_opt fallback
    then "if(e==='light'||e==='dark'||!e)d.style.colorScheme=e||'"
           +:+ defaultTheme props +:+ "'"
    else "if(e==='light'||e==='dark')d.style.colorScheme=e".

Definition updateDOM (name : string) (literal : bool) (setColorScheme : bool)
  : string :=
  let resolvedName :=
    match value props with
    | Some v => value_get v name
    | None => Some name
    end in
  let val :=
    if literal then name +:+ "|| ''" else "'" +:+ template resolvedName +:+ "'" in
  let text := "" in
  let text :=
    if enableColorScheme props && setColorScheme && negb literal
       && includes colorSchemes name
    then text +:+ "d.style.colorScheme = '" +:+ name +:+ "';"
    else text in
  let text :=
    if String.eqb (attribute props) "class" then
      if literal || truthy_opt resolvedName
      then text +:+ "c.add(" +:+ val +:+ ")"
      else text +:+ "null"
    else
      if truthy_opt resolvedName
      then text +:+ "d[s](n," +:+ val +:+ ")"
      else text in
  text.

(** [var x=...;] when a value map is given *)
Definition x_decl : string :=
  match value props with
  | Some v => "var x=" +:+ JSON_stringify v +:+ ";"
  | None => ""
  end.

(** [value ? `x[e]` : 'e'] *)
Definition stored_name : string :=
  match value props with
  | Some _ => "x[e]"
  | None => "e"
  end.

Definition scriptSrc : string :=
  if truthy_opt (forcedTheme props) then
    "!function(){" +:+ optimization
      +:+ updateDOM (default "" (forcedTheme props)) false true +:+ "}()"
  else if enableSystem props then
    "!function(){try{" +:+ optimization
      +:+ "var e=localStorage.getItem('" +:+ storageKey props
      +:+ "');if('system'===e||(!e&&" +:+ bool_text defaultSystem
      +:+ ")){var t='" +:+ MEDIA
      +:+ "',m=window.matchMedia(t);if(m.media!==t||m.matches){"
      +:+ updateDOM "dark" false true
      +:+ "}else{" +:+ updateDOM "light" false true
      +:+ "}}else if(e){" +:+ x_decl +:+ updateDOM stored_name true true
      +:+ "}"
      +:+ (if negb defaultSystem
           then "else{" +:+ updateDOM (defaultTheme props) false false +:+ "}"
           else "")
      +:+ fallbackColorScheme +:+ "}catch(e){}}()"
  else
    "!function(){try{" +:+ optimization
      +:+ "var e=localStorage.getItem('" +:+ storageKey props
      +:+ "');if(e){" +:+ x_decl +:+ updateDOM stored_name true true
      +:+ "}else{" +:+ updateDOM (defaultTheme props) false false
      +:+ ";}" +:+ fallbackColorScheme +:+ "}catch(t){}}();".

End ThemeScript.

(** ** [ThemeScript]: the statements of the inline script

    The script is a fixed template with holes.  [script] builds it as a
    syntax tree, [render_script] prints the tree, and the printed tree is
    the text of [scriptSrc] ([render_script_scriptSrc]).  [run_script] runs
    the tree on a [World].  A quoted literal ['s'] evaluates to [s], which is
    what the text denotes when [s] holds no quote, backslash or line break:
    the source splices the props unescaped, and with such a character the
    text is another program or none.  [run_script] is the meaning of the
    script for props that satisfy [script_plain] below, and the properties
    of the running script carry it as a hypothesis. *)

(** An expression spliced into the script as it is. *)
Inductive js_raw : Type :=
| RawE                          (* e *)
| RawLookup                     (* x[e] *)
| RawOther (text : string).

Inductive js_expr : Type :=
| EQuoted (s : string)          (* 's' *)
| EOrEmpty (r : js_raw).        (* r|| '' *)

Inductive js_stmt : Type :=
| SColorScheme (name : string)  (* d.style.colorScheme = 'name'; *)
| SClassAdd (e : js_expr)       (* c.add(e) *)
| SNull                         (* null *)
| SSetAttr (e : js_expr).       (* d[s](n,e) *)

(** The declarations at the head of the script. *)
Inductive js_init : Type :=
| InitClass (tokens : list string)   (* c=d.classList; c.remove(...) *)
| InitAttr (n : string).             (* n='attribute', s='setAttribute' *)

(** The trailing colour-scheme statement. *)
Inductive js_fallback : Type :=
| FallbackNone
| FallbackOrDefault (dflt : string)  (* if(e==='light'||e==='dark'||!e)...=e||'dflt' *)
| FallbackStored.                    (* if(e==='light'||e==='dark')...=e *)

Inductive js_script : Type :=
| ScriptForced (init : js_init) (body : list js_stmt)
| ScriptSystem (init : js_init) (key : string) (defaultSystem : bool)
    (dark light : list js_stmt) (x : option ValueMap) (stored : list js_stmt)
    (dflt : option (list js_stmt)) (fb : js_fallback)
| ScriptStored (init : js_init) (key : string)
    (x : option ValueMap) (stored : list js_stmt)
    (dflt : list js_stmt) (fb : js_fallback).

Definition parse_raw (name : string) : js_raw :=
  if String.eqb name "e" then RawE
  else if String.eqb name "x[e]" then RawLookup
  else RawOther name.

Definition render_raw (r : js_raw) : string :=
  match r with
  | RawE => "e"
  | RawLookup => "x[e]"
  | RawOther text => text
  end.

Definition render_expr (e : js_expr) : string :=
  match e with
  | EQuoted s => "'" +:+ s +:+ "'"
  | EOrEmpty r => render_raw r +:+ "|| ''"
  end.

Definition render_stmt (s : js_stmt) : string :=
  match s with
  | SColorScheme name => "d.style.colorScheme = '" +:+ name +:+ "';"
  | SClassAdd e => "c.add(" +:+ render_expr e +:+ ")"
  | SNull => "null"
  | SSetAttr e => "d[s](n," +:+ render_expr e +:+ ")"
  end.

Fixpoint render_stmts (l : list js_stmt) : string :=
  match l with
  | [] => ""
  | s :: l' => render_stmt s +:+ render_stmts l'
  end.

Definition render_init (i : js_init) : string :=
  match i with
  | InitClass tokens =>
      "var d=document.documentElement,c=d.classList;"
        +:+ ("c.remove(" +:+ join "," (map (fun t => "'" +:+ t +:+ "'") tokens) +:+ ")")
        +:+ ";"
  | InitAttr n =>
      "var d=document.documentElement,n='" +:+ n +:+ "',s='setAttribute';"
  end.

Definition render_fallback (fb : js_fallback) : string :=
  match fb with
  | FallbackNone => ""
  | FallbackOrDefault dflt =>
      "if(e==='light'||e==='dark'||!e)d.style.colorScheme=e||'" +:+ dflt +:+ "'"
  | FallbackStored => "if(e==='light'||e==='dark')d.style.colorScheme=e"
  end.

Definition render_x (x : option ValueMap) : string :=
  match x with
  | Some v => "var x=" +:+ JSON_stringify v +:+ ";"
  | None => ""
  end.

Definition render_script (s : js_script) : string :=
  match s with
  | ScriptForced init body =>
      "!function(){" +:+ render_init init +:+ render_stmts body +:+ "}()"
  | ScriptSystem init key defaultSystem dark light x stored dflt fb =>
      "!function(){try{" +:+ render_init init
        +:+ "var e=localStorage.getItem('" +:+ key
        +:+ "');if('system'===e||(!e&&" +:+ bool_text defaultSystem
        +:+ ")){var t='" +:+ MEDIA
        +:+ "',m=window.matchMedia(t);if(m.media!==t||m.matches){"
        +:+ render_stmts dark
        +:+ "}else{" +:+ render_stmts light
        +:+ "}}else if(e){" +:+ render_x x +:+ render_stmts stored
        +:+ "}"
        +:+ match dflt with
            | Some l => "else{" +:+ render_stmts l +:+ "}"
            | None => ""
            end
        +:+ render_fallback fb +:+ "}catch(e){}}()"
  | ScriptStored init key x stored dflt fb =>
      "!function(){try{" +:+ render_init init
        +:+ "var e=localStorage.getItem('" +:+ key
        +:+ "');if(e){" +:+ render_x x +:+ render_stmts stored
        +:+ "}else{" +:+ render_stmts dflt
        +:+ ";}" +:+ render_fallback fb +:+ "}catch(t){}}();"
  end.

Section ThemeScriptTree.

Variable props : Props.
Variable attrs : list string.

Definition init : js_init :=
  if String.eqb (attribute props) "class" then InitClass attrs
  else InitAttr (attribute props).

Definition fallback : js_fallback :=
  if negb (enableColorScheme props) then FallbackNone
  else if truthy_opt (if includes colorSchemes (defaultTheme props)
                      then Some (defaultTheme props) else None)
  then FallbackOrDefault (defaultTheme props)
  else FallbackStored.

(** The statements whose text [updateDOM] returns. *)
Definition updateDOM_stmts (name : string) (literal : bool)
    (setColorScheme : bool) : list js_stmt :=
  let resolvedName :=
    match value props with
    | Some v => value_get v name
    | None => Some name
    end in
  let val :=
    if literal then EOrEmpty (parse_raw name) else EQuoted (template resolvedName) in
  let text := [] in
  let text :=
    if enableColorScheme props && setColorScheme && negb literal
       && includes colorSchemes name
    then text ++ [SColorScheme name]
    else text in
  let text :=
    if String.eqb (attribute props) "class" then
      if literal || truthy_opt resolvedName
      then text ++ [SClassAdd val]
      else text ++ [SNull]
    else
      if truthy_opt resolvedName
      then text ++ [SSetAttr val]
      else text in
  text.

Definition script : js_script :=
  if truthy_opt (forcedTheme props) then
    ScriptForced init (updateDOM_stmts (default "" (forcedTheme props)) false true)
  else if enableSystem props then
    ScriptSystem init (storageKey props) (defaultSystem props)
      (updateDOM_stmts "dark" false true)
      (updateDOM_stmts "light" false true)
      (value props)
      (updateDOM_stmts (stored_name props) true true)
      (if negb (defaultSystem props)
       then Some (updateDOM_stmts (defaultTheme props) false false)
       else None)
      fallback
  else
    ScriptStored init (storageKey props)
      (value props)
      (updateDOM_stmts (stored_name props) true true)
      (updateDOM_stmts (defaultTheme props) false false)
      fallback.

End ThemeScriptTree.

(** *** Running the script *)

(** The variables [e] and [x] of the script. *)
Record js_env : Type := {
  var_e : option string;
  var_x : option ValueMap
}.

Definition eval_raw (env : js_env) (r : js_raw) : completion (option string) :=
  match r with
  | RawE => Normal (var_e env)
  | RawLookup =>
      match var_x env with
      | Some v => Normal (value_get v (default "null" (var_e env)))
      | None => Throw                     (* ReferenceError: x *)
      end
  | RawOther _ => Throw
  end.

Definition eval_expr (env : js_env) (e : js_expr) : completion string :=
  match e with
  | EQuoted s => Normal s
  | EOrEmpty r =>
      match eval_raw env r with
      | Normal v => Normal (or_string v "")
      | Throw => Throw
      end
  end.

(** One statement; a statement that throws leaves the element as it was.
    [c] is only declared in class mode, [n] and [s] only in attribute mode. *)
Definition exec_stmt (i : js_init) (env : js_env) (s : js_stmt) (d : Dom)
  : completion Dom :=
  match s with
  | SColorScheme name => Normal (set_colorScheme (Some name) d)
  | SNull => Normal d
  | SClassAdd e =>
      match i, eval_expr env e with
      | InitClass _, Normal v =>
          match classList_add v (classList d) with
          | Normal cl => Normal (set_classList d cl)
          | Throw => Throw
          end
      | _, _ => Throw
      end
  | SSetAttr e =>
      match i, eval_expr env e with
      | InitAttr n, Normal v => Normal (setAttribute n v d)
      | _, _ => Throw
      end
  end.

Fixpoint exec_stmts (i : js_init) (env : js_env) (l : list js_stmt) (d : Dom)
  : outcome Dom :=
  match l with
  | [] => Done d
  | s :: l' =>
      match exec_stmt i env s d with
      | Normal d' => exec_stmts i env l' d'
      | Throw => Thrown d
      end
  end.

Definition exec_init (i : js_init) (d : Dom) : outcome Dom :=
  match i with
  | InitClass tokens =>
      match classList_remove tokens (classList d) with
      | Normal cl => Done (set_classList d cl)
      | Throw => Thrown d
      end
  | InitAttr _ => Done d
  end.

Definition is_light_or_dark (e : option string) : bool :=
  match e with
  | Some s => String.eqb s "light" || String.eqb s "dark"
  | None => false
  end.

Definition exec_fallback (fb : js_fallback) (e : option string) (d : Dom) : Dom :=
  match fb with
  | FallbackNone => d
  | FallbackOrDefault dflt =>
      if is_light_or_dark e || negb (truthy_opt e)
      then set_colorScheme (Some (or_string e dflt)) d
      else d
  | FallbackStored =>
      if is_light_or_dark e then set_colorScheme e d else d
  end.

(** What follows the head of the script inside [try]. *)
Definition run_body (w : World) (i : js_init) (key : string)
    (branch : option string → Dom → outcome Dom) (fb : js_fallback) (d : Dom)
  : outcome Dom :=
  match getItem (storage w) key with
  | Throw => Thrown d
  | Normal e =>
      match branch e d with
      | Thrown d' => Thrown d'
      | Done d' => Done (exec_fallback fb e d')
      end
  end.

(** The script on a world.  Only the forced script has no [try] around it;
    the others end normally whatever is thrown inside. *)
Definition run_script (s : js_script) (w : World) : outcome World :=
  match s with
  | ScriptForced i body =>
      match exec_init i (document w) with
      | Thrown d => Thrown (with_document w d)
      | Done d =>
          match exec_stmts i {| var_e := None; var_x := None |} body d with
          | Thrown d' => Thrown (with_document w d')
          | Done d' => Done (with_document w d')
          end
      end
  | ScriptSystem i key defaultSystem dark light x stored dflt fb =>
      let branch e d :=
        if bool_decide (e = Some "system") || (negb (truthy_opt e) && defaultSystem)
        then
          let m := media w in
          if negb (String.eqb (mq_media m) MEDIA) || matches m
          then exec_stmts i {| var_e := e; var_x := None |} dark d
          else exec_stmts i {| var_e := e; var_x := None |} light d
        else if truthy_opt e
        then exec_stmts i {| var_e := e; var_x := x |} stored d
        else
          match dflt with
          | Some l => exec_stmts i {| var_e := e; var_x := None |} l d
          | None => Done d
          end in
      match exec_init i (document w) with
      | Thrown d => Done (with_document w d)
      | Done d => Done (with_document w (outcome_state (run_body w i key branch fb d)))
      end
  | ScriptStored i key x stored dflt fb =>
      let branch e d :=
        if truthy_opt e
        then exec_stmts i {| var_e := e; var_x := x |} stored d
        else exec_stmts i {| var_e := e; var_x := None |} dflt d in
      match exec_init i (document w) with
      | Thrown d => Done (with_document w d)
      | Done d => Done (with_document w (outcome_state (run_body w i key branch fb d)))
      end
  end.

(** The inline script of a [Theme] on the world it first runs in. *)
Definition inline_script (props : Props) (w : World) : outcome World :=
  run_script (script props (attrs props)) w.

(** ** Context, [useTheme] and [ThemeProvider] *)

(** Modelled from the spec: the declaration of [UseThemeProps] is in
    [./types], which is not among the sources.  The fields are those of
    [providerValue] and [defaultContext], the ones a context leaves out
    being [undefined].  [setTheme] acts on the mounted [Theme] that
    published the value. *)
Record UseThemeProps : Type := {
  ctx_themes : list string;
  ctx_forcedTheme : option string;
  ctx_setTheme : string → App → App;
  ctx_theme : option string;
  ctx_resolvedTheme : option string;
  ctx_systemTheme : option string
}.

Definition defaultContext : UseThemeProps :=
  {| ctx_themes := [];
     ctx_forcedTheme := None;
     ctx_setTheme := fun _ a => a;
     ctx_theme := None;
     ctx_resolvedTheme := None;
     ctx_systemTheme := None |}.

(** [useContext(ThemeContext) ?? defaultContext] under the context value of
    the nearest provider above, if any. *)
Definition useTheme (context : option UseThemeProps) : UseThemeProps :=
  match context with
  | Some c => c
  | None => defaultContext
  end.

Definition providerValue (props : Props) (st : ThemeState) : UseThemeProps :=
  {| ctx_theme := theme st;
     ctx_setTheme := setTheme props;
     ctx_forcedTheme := forcedTheme props;
     ctx_resolvedTheme :=
       if theme_is (theme st) "system" ||
          (enableMultipleSystemThemes props && theme_startsWith_system (theme st))
       then resolvedTheme st else theme st;
     ctx_systemTheme := if enableSystem props then resolvedTheme st else None;
     ctx_themes := providerThemes props |}.

#[local] Set Warnings "-register-all".

(** A React element tree, as far as the library is concerned: text, host
    elements, components that call [useTheme], and [ThemeProvider]s. *)
Inductive element : Type :=
| Text (s : string)
| Host (tag : string) (children : list element)
| Consumer
| ThemeProvider (p : ThemeProviderProps) (children : list element).

(** What a first render produces. *)
Inductive rendered : Type :=
| RText (s : string)
| RHost (tag : string) (children : list rendered)
| RConsumer (seen : UseThemeProps)
| RFragment (children : list rendered)
| RScript (nonce : option string) (html : string)
| RProvider (st : ThemeState) (value : UseThemeProps) (children : list rendered).

Section Render.

Variable isServer : bool.
Variable w : World.

(** [context] is the value [useContext(ThemeContext)] returns at the
    element. *)
Fixpoint render (context : option UseThemeProps) (e : element) : rendered :=
  match e with
  | Text s => RText s
  | Host tag children => RHost tag (map (render context) children)
  | Consumer => RConsumer (useTheme context)
  | ThemeProvider p children =>
      match context with
      | Some _ =>
          (* Ignore nested context providers, just passthrough children *)
          RFragment (map (render context) children)
      | None =>
          let props := destructure p in
          let st := initialState isServer props w in
          let value := providerValue props st in
          RProvider st value
            (RScript (nonce props) (scriptSrc props (attrs props))
               :: map (render (Some value)) children)
      end
  end.

End Render.

(** The state containers, the inline scripts and the contexts seen by
    consumers in a rendered tree. *)
Fixpoint count_providers (r : rendered) : nat :=
  match r with
  | RText _ | RConsumer _ | RScript _ _ => 0
  | RHost _ children | RFragment children =>
      list_sum (map count_providers children)
  | RProvider _ _ children => S (list_sum (map count_providers children))
  end.

Fixpoint count_scripts (r : rendered) : nat :=
  match r with
  | RText _ | RConsumer _ => 0
  | RScript _ _ => 1
  | RHost _ children | RFragment children | RProvider _ _ children =>
      list_sum (map count_scripts children)
  end.

Fixpoint seen_contexts (r : rendered) : list UseThemeProps :=
  match r with
  | RText _ | RScript _ _ => []
  | RConsumer c => [c]
  | RHost _ children | RFragment children | RProvider _ _ children =>
      concat (map seen_contexts children)
  end.

(** * Vocabulary of the properties *)

(** The known attribute values that are present as classes. *)
Definition known_classes (props : Props) (d : Dom) : list string :=
  List.filter (includes (attrs props)) (classList d).

(** The root shows exactly one theme: one known value among its classes in
    class mode, a value of the configured attribute otherwise. *)
Definition reflects_one_theme (props : Props) (d : Dom) : Prop :=
  if String.eqb (attribute props) "class"
  then ∃ a, known_classes props d = [a]
  else is_Some (attributes d !! attribute props).

(** What the document root shows of the theme: its classes and attributes. *)
Definition root_theme (d : Dom) : list string * gmap string string :=
  (classList d, attributes d).

(** The preference the component starts from: the stored one, or the
    default theme when nothing (or the empty string) is stored. *)
Definition stored_theme (props : Props) (w : World) : string :=
  or_string (items (storage w) !! storageKey props) (defaultTheme props).

(** A compound [system-...] preference in the extended mode. *)
Definition compound_system (props : Props) (t : string) : bool :=
  enableSystem props && enableMultipleSystemThemes props && startsWith t "system-".

(** A suffix key: empty, or a dash and the rest. *)
Definition suffix_key (k : string) : Prop := k = "" ∨ ∃ r, k = "-" +:+ r.

(** The two tests of the loop of [providerThemes]. *)
Definition is_light (t : string) : bool :=
  String.eqb t "light" || startsWith t "light-".

Definition is_dark (t : string) : bool :=
  String.eqb t "dark" || startsWith t "dark-".

(** Statements of the script that write the theme, and those that write
    the colour scheme. *)
Definition is_theme_write (s : js_stmt) : bool :=
  match s with
  | SClassAdd _ | SSetAttr _ => true
  | SColorScheme _ | SNull => false
  end.

Definition is_colorScheme_write (s : js_stmt) : bool :=
  match s with
  | SColorScheme _ => true
  | SClassAdd _ | SSetAttr _ | SNull => false
  end.

(** A statement list that writes the colour scheme whenever it writes the
    theme. *)
Definition writes_colorScheme_with_theme (l : list js_stmt) : Prop :=
  existsb is_theme_write l = true → existsb is_colorScheme_write l = true.

(** What [maybeSystemThemes] holds once the loop has gone through [seen]. *)
Record record_inv (m : SystemRecord) (seen : list string) : Prop := {
  inv_keys : NoDup (map fst m);
  inv_entry : ∀ k v, record_get m k = Some v →
    suffix_key k ∧
    (light v = true ↔ "light" +:+ k ∈ seen) ∧
    (dark v = true ↔ "dark" +:+ k ∈ seen);
  inv_present : ∀ k, suffix_key k →
    "light" +:+ k ∈ seen ∨ "dark" +:+ k ∈ seen → is_Some (record_get m k)
}.

(** ** Inputs on which the model is the browser *)

(** The first character of a plain attribute name: a lower-case letter or
    an underscore. *)
Definition attribute_start (c : ascii) : bool :=
  let n := nat_of_ascii c in
  (Nat.leb 97 n && Nat.leb n 122) || Nat.eqb n 95.

(** The other characters: also digits, [-] and [.]. *)
Definition attribute_char (c : ascii) : bool :=
  let n := nat_of_ascii c in
  attribute_start c || (Nat.leb 48 n && Nat.leb n 57) || Nat.eqb n 45 || Nat.eqb n 46.

(** A name [d.setAttribute] accepts (it is an XML name), keeps as it is (it
    has no upper-case letter for an HTML element to lower) and stores apart
    from the class list and the inline style (it is neither [class] nor
    [style]). *)
Definition plain_attribute (n : string) : bool :=
  match n with
  | EmptyString => false
  | String c rest =>
      attribute_start c && forallb attribute_char (list_ascii_of_string rest)
      && negb (String.eqb n "class") && negb (String.eqb n "style")
  end.

(** The [attribute] prop is [class] or a plain attribute name. *)
Definition attribute_ok (props : Props) : bool :=
  String.eqb (attribute props) "class" || plain_attribute (attribute props).

(** The members of an unmodified [Object.prototype], which [value[k]] finds
    when [value] has no own property [k]. *)
Definition prototype_members : list string :=
  ["constructor"; "__proto__"; "hasOwnProperty"; "isPrototypeOf";
   "propertyIsEnumerable"; "toLocaleString"; "toString"; "valueOf";
   "__defineGetter__"; "__defineSetter__"; "__lookupGetter__";
   "__lookupSetter__"].

(** [value[k]] is decided by the own properties of [value]: there is no
    value map, or [k] is no member of [Object.prototype]. *)
Definition own_lookup (props : Props) (k : string) : bool :=
  match value props with
  | Some _ => negb (includes prototype_members k)
  | None => true
  end.

(** A character that stands for itself between single quotes in an inline
    script: printable ASCII other than the quote, the backslash and [<]
    (which could close the script element). *)
Definition plain_char (c : ascii) : bool :=
  let n := nat_of_ascii c in
  Nat.leb 32 n && Nat.leb n 126
  && negb (Nat.eqb n 39) && negb (Nat.eqb n 92) && negb (Nat.eqb n 60).

Definition plain_literal (s : string) : bool :=
  forallb plain_char (list_ascii_of_string s).

(** Every string [ThemeScript] splices into the script is plain: the
    storage key, the attribute, the default and the forced theme, the known
    attribute values and the keys of the value map. *)
Definition script_plain (props : Props) : bool :=
  plain_literal (storageKey props) && plain_literal (attribute props)
  && plain_literal (defaultTheme props)
  && plain_literal (default "" (forcedTheme props))
  && forallb plain_literal (attrs props)
  && forallb plain_literal (map fst (default [] (value props))).

(** * Sample inputs *)

(** A browser with the given storage entries, a working storage, a
    supported media query and an empty document root. *)
Definition world_of (its : list (string * string)) (dark_mode : bool) : World :=
  {| storage := {| items := list_to_map its; denied := false; full := false |};
     media := {| mq_media := MEDIA; matches := dark_mode |};
     document := {| classList := []; attributes := ∅; colorScheme := None;
                    headStyles := [] |};
     timers := [] |}.

Definition sample_props : Props :=
  {| forcedTheme := None; disableTransitionOnChange := false;
     enableSystem := true; enableMultipleSystemThemes := true;
     enableColorScheme := true; storageKey := "theme";
     themes := ["light"; "dark"; "light-hc"; "dark-hc"];
     defaultTheme := "system"; attribute := "data-theme";
     value := None; nonce := None |}.

Definition class_props : Props :=
  {| forcedTheme := None; disableTransitionOnChange := false;
     enableSystem := true; enableMultipleSystemThemes := false;
     enableColorScheme := true; storageKey := "theme";
     themes := ["light"; "dark"];
     defaultTheme := "system"; attribute := "class";
     value := None; nonce := None |}.

(** Class mode with a value map that has no entry for [dark]. *)
Definition partial_map_props : Props :=
  {| forcedTheme := None; disableTransitionOnChange := false;
     enableSystem := false; enableMultipleSystemThemes := false;
     enableColorScheme := true; storageKey := "theme";
     themes := ["light"; "dark"];
     defaultTheme := "light"; attribute := "class";
     value := Some [("light", "l")]; nonce := None |}.

Definition world_with_classes (cl : list string) : World :=
  {| storage := {| items := ∅; denied := false; full := false |};
     media := {| mq_media := MEDIA; matches := false |};
     document := {| classList := cl; attributes := ∅; colorScheme := None;
                    headStyles := [] |};
     timers := [] |}.

(** Class mode in the extended mode. *)
Definition compound_class_props : Props :=
  {| forcedTheme := None; disableTransitionOnChange := false;
     enableSystem := true; enableMultipleSystemThemes := true;
     enableColorScheme := true; storageKey := "theme";
     themes := ["light"; "dark"; "light-hc"; "dark-hc"];
     defaultTheme := "system"; attribute := "class";
     value := None; nonce := None |}.

Definition no_props : ThemeProviderProps :=
  {| p_forcedTheme := None; p_disableTransitionOnChange := None;
     p_enableSystem := None; p_enableMultipleSystemThemes := None;
     p_enableColorScheme := None; p_storageKey := None; p_themes := None;
     p_defaultTheme := None; p_attribute := None; p_value := None;
     p_nonce := None |}.

Definition sample_app (its : list (string * string)) (t : string) : App :=
  {| state := {| theme := Some t; resolvedTheme := Some "light" |};
     world := world_of its false |}.

Definition broken_world : World :=
  {| storage := {| items := ∅; denied := true; full := false |};
     media := {| mq_media := MEDIA; matches := false |};
     document := {| classList := []; attributes := ∅; colorScheme := None;
                    headStyles := [] |};
     timers := [] |}.

(** Class mode with [disableTransitionOnChange] and [enableSystem] off. *)
Definition transition_props : Props :=
  {| forcedTheme := None; disableTransitionOnChange := true;
     enableSystem := false; enableMultipleSystemThemes := false;
     enableColorScheme := true; storageKey := "theme";
     themes := ["light"; "dark"];
     defaultTheme := "light"; attribute := "class";
     value := None; nonce := None |}.

(** A forced theme that is no light or dark variant. *)
Definition forced_props : Props :=
  {| forcedTheme := Some "pink"; disableTransitionOnChange := false;
     enableSystem := true; enableMultipleSystemThemes := false;
     enableColorScheme := true; storageKey := "theme";
     themes := ["light"; "dark"; "pink"];
     defaultTheme := "system"; attribute := "class";
     value := None; nonce := None |}.

(** Attribute mode with a value map. *)
Definition mapped_props : Props :=
  {| forcedTheme := None; disableTransitionOnChange := false;
     enableSystem := true; enableMultipleSystemThemes := false;
     enableColorScheme := true; storageKey := "theme";
     themes := ["light"; "dark"];
     defaultTheme := "system"; attribute := "data-theme";
     value := Some [("light", "day"); ("dark", "night")]; nonce := None |}.

(** A browser that does not know [prefers-color-scheme]. *)
Definition old_browser : World :=
  {| storage := {| items := {[ "theme" := "system" ]}; denied := false; full := false |};
     media := {| mq_media := "not all"; matches := false |};
     document := {| classList := []; attributes := ∅; colorScheme := None;
                    headStyles := [] |};
     timers := [] |}.

(** * Properties *)

(** ** Basic facts about the string methods *)

Lemma truthy_true (s : string) : truthy s = true ↔ s ≠ "".
Proof.
  unfold truthy. destruct (String.eqb_spec s ""); simpl; split; congruence.
Qed.

Lemma truthy_false (s : string) : truthy s = false ↔ s = "".
Proof.
  unfold truthy. destruct (String.eqb_spec s ""); simpl; split; congruence.
Qed.

Lemma or_truthy (a b : option string) : truthy_opt a = true → JS.or a b = a.
Proof. unfold JS.or. by intros ->. Qed.

Lemma or_falsy (a b : option string) : truthy_opt a = false → JS.or a b = b.
Proof. unfold JS.or. by intros ->. Qed.

Lemma append_cons (a : ascii) (s t : string) :
  String a s +:+ t = String a (s +:+ t).
Proof. reflexivity. Qed.

Lemma append_nil (t : string) : "" +:+ t = t.
Proof. reflexivity. Qed.

Lemma startsWith_append (p s : string) : startsWith (p +:+ s) p = true.
Proof.
  unfold startsWith. induction p as [|a p IH].
  - simpl. by destruct s.
  - rewrite append_cons. simpl. destruct (ascii_dec a a); [done | congruence].
Qed.

Lemma startsWith_inv (s p : string) :
  startsWith s p = true → s = p +:+ JS.substring (String.length p) s.
Proof.
  unfold startsWith. revert s. induction p as [|a p IH]; intros s H; simpl.
  - done.
  - destruct s as [|b s]; simpl in H; [done|].
    destruct (ascii_dec a b) as [->|]; [|done].
    rewrite append_cons. f_equal. by apply IH.
Qed.

Lemma substring_append (p s : string) :
  JS.substring (String.length p) (p +:+ s) = s.
Proof.
  induction p as [|a p IH]; [by destruct s | by rewrite append_cons].
Qed.

Lemma includes_elem_of (l : list string) (x : string) : includes l x = true ↔ x ∈ l.
Proof.
  unfold includes. rewrite existsb_exists, list_elem_of_In. split.
  - intros (y & Hy & He). apply String.eqb_eq in He. by subst.
  - intros H. exists x. split; [done | apply String.eqb_refl].
Qed.

Lemma includes_true (l : list string) (x : string) : includes l x = true ↔ In x l.
Proof.
  unfold includes. rewrite existsb_exists. split.
  - intros (y & Hy & He). apply String.eqb_eq in He. by subst.
  - intros H. exists x. split; [done | apply String.eqb_refl].
Qed.

Lemma plain_attribute_not_class (n : string) :
  plain_attribute n = true → String.eqb n "class" = false.
Proof.
  unfold plain_attribute. destruct n as [|c rest]; [done|].
  intros H. apply andb_true_iff in H as [H _].
  apply andb_true_iff in H as [_ H]. by apply negb_true_iff in H.
Qed.

(** ** The model on concrete inputs *)

Example scriptSrc_defaults :
  scriptSrc (destructure no_props) (attrs (destructure no_props)) =
  "!function(){try{var d=document.documentElement,n='data-theme',s='setAttribute';var e=localStorage.getItem('theme');if('system'===e||(!e&&true)){var t='(prefers-color-scheme: dark)',m=window.matchMedia(t);if(m.media!==t||m.matches){d.style.colorScheme = 'dark';d[s](n,'dark')}else{d.style.colorScheme = 'light';d[s](n,'light')}}else if(e){d[s](n,e|| '')}if(e==='light'||e==='dark')d.style.colorScheme=e}catch(e){}}()".
Proof. reflexivity. Qed.

Example scriptSrc_class_value :
  scriptSrc partial_map_props (attrs partial_map_props) =
  "!function(){try{var d=document.documentElement,c=d.classList;c.remove('l');var e=localStorage.getItem('theme');if(e){var x={" +:+ dquote +:+ "light" +:+ dquote +:+ ":" +:+ dquote +:+ "l" +:+ dquote +:+ "};c.add(x[e]|| '')}else{c.add('l');}if(e==='light'||e==='dark'||!e)d.style.colorScheme=e||'light'}catch(t){}}();".
Proof. reflexivity. Qed.

Example providerThemes_sample :
  providerThemes sample_props =
  ["light"; "dark"; "light-hc"; "dark-hc"; "system"; "system-hc"].
Proof. reflexivity. Qed.

Example plain_inputs :
  plain_attribute "data-theme" = true ∧
  plain_attribute "data theme" = false ∧
  plain_attribute "CLASS" = false ∧
  plain_attribute "style" = false ∧
  plain_attribute "" = false ∧
  plain_literal "it's" = false ∧
  script_plain sample_props = true ∧
  own_lookup partial_map_props "constructor" = false ∧
  own_lookup partial_map_props "dark" = true.
Proof. repeat split. Qed.

Example applyTheme_system_dark :
  applyTheme sample_props (Some "system") (world_of [] true) =
  Done {| storage := storage (world_of [] true);
          media := media (world_of [] true);
          document := {| classList := []; attributes := {[ "data-theme" := "dark" ]};
                         colorScheme := Some "dark"; headStyles := [] |};
          timers := [] |}.
Proof. reflexivity. Qed.

(** ** The printed script is the text of [scriptSrc] *)

Lemma append_assoc (a b c : string) : (a +:+ b) +:+ c = a +:+ b +:+ c.
Proof. induction a as [|x a IH]; [done|]. rewrite !append_cons. by f_equal. Qed.

Lemma append_empty_r (a : string) : a +:+ "" = a.
Proof. induction a as [|x a IH]; [done|]. rewrite append_cons. by f_equal. Qed.

Lemma render_stmts_app (l1 l2 : list js_stmt) :
  render_stmts (l1 ++ l2) = render_stmts l1 +:+ render_stmts l2.
Proof.
  induction l1 as [|s l1 IH]; simpl; [done|]. by rewrite IH, append_assoc.
Qed.

Lemma render_parse_raw (name : string) : render_raw (parse_raw name) = name.
Proof.
  unfold parse_raw.
  destruct (String.eqb_spec name "e") as [->|]; [done|].
  destruct (String.eqb_spec name "x[e]") as [->|]; done.
Qed.

Lemma render_updateDOM (props : Props) (name : string) (literal scs : bool) :
  render_stmts (updateDOM_stmts props name literal scs) =
  updateDOM props name literal scs.
Proof.
  unfold updateDOM_stmts, updateDOM.
  set (resolvedName := match value props with Some v => value_get v name | None => Some name end).
  destruct (enableColorScheme props && scs && negb literal && includes colorSchemes name);
    destruct (String.eqb (attribute props) "class");
    destruct literal; simpl;
    try destruct (truthy_opt resolvedName); simpl;
    rewrite ?render_parse_raw, ?append_empty_r, ?append_assoc, ?append_nil; reflexivity.
Qed.

Lemma render_init_optimization (props : Props) (attrs : list string) :
  render_init (init props attrs) = optimization props attrs.
Proof.
  unfold init, optimization. by destruct (String.eqb (attribute props) "class").
Qed.

Lemma render_fallback_text (props : Props) :
  render_fallback (fallback props) = fallbackColorScheme props.
Proof.
  unfold fallback, fallbackColorScheme.
  destruct (enableColorScheme props); simpl; [|done].
  by destruct (truthy_opt _).
Qed.

Theorem render_script_scriptSrc (props : Props) (attrs : list string) :
  render_script (script props attrs) = scriptSrc props attrs.
Proof.
  unfold script, scriptSrc.
  destruct (truthy_opt (forcedTheme props)); [|destruct (enableSystem props)];
    simpl; rewrite ?render_init_optimization, ?render_updateDOM,
      ?render_fallback_text; try reflexivity.
  destruct (defaultSystem props); simpl; by rewrite ?render_updateDOM.
Qed.

(** ** C1: the inline script and [applyTheme] *)

Lemma root_theme_applyTheme (props : Props) (t : string) (w : World) :
  truthy t = true →
  root_theme (document (outcome_state (applyTheme props (Some t) w))) =
  root_theme (outcome_state
    (write_name props (attr_name props (resolve props w t)) (document w))).
Proof.
  intros Ht. unfold applyTheme. simpl. rewrite Ht. simpl.
  destruct (disableTransitionOnChange props); simpl.
  - unfold write_name. simpl.
    destruct (String.eqb (attribute props) "class"); simpl.
    + destruct (classList_remove _ _); simpl; [|done].
      destruct (truthy_opt _); simpl; [|by destruct (enableColorScheme props)].
      destruct (classList_add _ _); simpl; [|done].
      by destruct (enableColorScheme props).
    + destruct (truthy_opt _); by destruct (enableColorScheme props).
  - destruct (write_name _ _ _); simpl; [|done].
    by destruct (enableColorScheme props).
Qed.

Lemma root_theme_exec_fallback fb e d :
  root_theme (exec_fallback fb e d) = root_theme d.
Proof.
  destruct fb; simpl; [done| |].
  - by destruct (_ || _).
  - by destruct (is_light_or_dark e).
Qed.

Ltac case_colorScheme :=
  match goal with
  | |- context [if ?b then [SColorScheme _] else []] => destruct b
  end.

(** A script branch that writes the quoted name [n]. *)
Lemma root_theme_write_quoted (props : Props) (env : js_env) (n : string)
    (scs : bool) (d d0 : Dom) :
  value props = None →
  truthy n = true →
  exec_init (init props (attrs props)) d0 = Done d →
  root_theme (outcome_state
    (exec_stmts (init props (attrs props)) env (updateDOM_stmts props n false scs) d)) =
  root_theme (outcome_state (write_name props (Some n) d0)).
Proof.
  intros Hv Hn. unfold updateDOM_stmts, write_name, init, exec_init. rewrite Hv. simpl. rewrite Hn.
  destruct (String.eqb (attribute props) "class"); simpl.
  - destruct (classList_remove _ _) as [cl|]; [|done]. intros [= <-].
    case_colorScheme; simpl; destruct (classList_add n cl); done.
  - intros [= <-]. by case_colorScheme.
Qed.

Lemma root_theme_write_stored (props : Props) (e : string) (d d0 : Dom) x :
  value props = None →
  truthy e = true →
  exec_init (init props (attrs props)) d0 = Done d →
  root_theme (outcome_state
    (exec_stmts (init props (attrs props)) {| var_e := Some e; var_x := x |}
       (updateDOM_stmts props (stored_name props) true true) d)) =
  root_theme (outcome_state (write_name props (Some e) d0)).
Proof.
  intros Hv He. unfold updateDOM_stmts, write_name, init, exec_init, stored_name. rewrite Hv. simpl. rewrite He.
  rewrite !andb_false_r.
  destruct (String.eqb (attribute props) "class"); simpl.
  - destruct (classList_remove _ _) as [cl|]; [|done]. intros [= <-]. rewrite He. simpl.
    destruct (classList_add e cl); done.
  - intros [= <-]. by rewrite He.
Qed.

Lemma exec_init_thrown (props : Props) (d d' : Dom) n :
  exec_init (init props (attrs props)) d = Thrown d' →
  d' = d ∧ write_name props n d = Thrown d.
Proof.
  unfold exec_init, init, write_name.
  destruct (String.eqb (attribute props) "class"); [|done].
  destruct (classList_remove _ _); [done|]. by intros [= <-].
Qed.

Lemma root_theme_run_body (w : World) i k branch fb d :
  denied (storage w) = false →
  root_theme (outcome_state (run_body w i k branch fb d)) =
  root_theme (outcome_state (branch (items (storage w) !! k) d)).
Proof.
  intros Hd. unfold run_body, getItem. rewrite Hd.
  destruct (branch _ _); simpl; [apply root_theme_exec_fallback | done].
Qed.

(** X14. Where the script and [applyTheme] agree: for props whose spliced
    strings are plain and whose attribute is [class] or a plain attribute
    name, without a forced theme and a value map, with a readable storage,
    a supported media query and a non-empty default theme, the script
    leaves the classes and attributes of the root as [applyTheme] does for
    the preference the component starts from, unless that preference is a
    compound [system-...] name in the extended mode. *)
Theorem inline_script_agrees_applyTheme (props : Props) (w : World) :
  script_plain props = true →
  attribute_ok props = true →
  forcedTheme props = None →
  value props = None →
  mq_media (media w) = MEDIA →
  denied (storage w) = false →
  defaultTheme props ≠ "" →
  compound_system props (stored_theme props w) = false →
  getTheme false w (storageKey props) (Some (defaultTheme props))
    = Some (stored_theme props w) ∧
  root_theme (document (outcome_state (inline_script props w))) =
  root_theme (document (outcome_state
                (applyTheme props (Some (stored_theme props w)) w))).
Proof.
  intros _ _ Hf Hv Hm Hd Hdef Hc.
  assert (Hdt : truthy (defaultTheme props) = true) by by apply truthy_true.
  assert (Ht : truthy (stored_theme props w) = true).
  { unfold stored_theme, or_string.
    destruct (items (storage w) !! storageKey props) as [s|]; [|done].
    by destruct (truthy s) eqn:E. }
  split.
  { unfold getTheme, getItem, stored_theme. rewrite Hd.
    destruct (items (storage w) !! storageKey props) as [s|]; simpl.
    - unfold JS.or. simpl. destruct (truthy s) eqn:E; simpl; by rewrite ?E.
    - done. }
  rewrite root_theme_applyTheme by done.
  unfold attr_name. rewrite Hv.
  set (t := stored_theme props w) in *.
  assert (Hscript : ∃ body,
    document (outcome_state (inline_script props w)) =
      match exec_init (init props (attrs props)) (document w) with
      | Thrown d => d
      | Done d => outcome_state (run_body w (init props (attrs props))
                                   (storageKey props) body (fallback props) d)
      end ∧
    ∀ d, exec_init (init props (attrs props)) (document w) = Done d →
      root_theme (outcome_state (body (items (storage w) !! storageKey props) d)) =
      root_theme (outcome_state (write_name props (Some (resolve props w t)) (document w)))).
  { unfold inline_script, script, run_script. rewrite Hf. simpl.
    unfold compound_system in Hc. unfold resolve.
    destruct (enableSystem props) eqn:Hes; simpl in *.
    - eexists. split.
      { destruct (exec_init _ _); reflexivity. }
      intros d Hi. simpl. rewrite Hc. rewrite Hm. rewrite String.eqb_refl. simpl.
      subst t. unfold stored_theme, or_string, defaultSystem in *.
      destruct (items (storage w) !! storageKey props) as [s|] eqn:Hs; simpl.
      + destruct (truthy s) eqn:Es; simpl.
        * destruct (String.eqb_spec s "system") as [->|Hne].
          -- rewrite bool_decide_eq_true_2 by done. simpl. unfold getSystemTheme.
             destruct (matches (media w));
               by apply root_theme_write_quoted.
          -- rewrite bool_decide_eq_false_2 by congruence. simpl.
             by apply root_theme_write_stored.
        * apply truthy_false in Es as ->.
          rewrite bool_decide_eq_false_2 by done. simpl.
          destruct (String.eqb_spec (defaultTheme props) "system") as [He|He]; simpl.
          -- unfold getSystemTheme.
             destruct (matches (media w));
               by apply root_theme_write_quoted.
          -- by apply root_theme_write_quoted.
      + rewrite ?bool_decide_eq_false_2 by done. simpl.
        destruct (String.eqb_spec (defaultTheme props) "system") as [He|He]; simpl.
        * unfold getSystemTheme.
          destruct (matches (media w)); by apply root_theme_write_quoted.
        * by apply root_theme_write_quoted.
    - eexists. split.
      { destruct (exec_init _ _); reflexivity. }
      intros d Hi. simpl.
      subst t. unfold stored_theme, or_string in *.
      destruct (items (storage w) !! storageKey props) as [s|] eqn:Hs; simpl.
      + destruct (truthy s) eqn:Es; simpl.
        * by apply root_theme_write_stored.
        * by apply root_theme_write_quoted.
      + by apply root_theme_write_quoted. }
  destruct Hscript as (body & -> & Hbody).
  destruct (exec_init _ _) as [d|d] eqn:Hi.
  - rewrite root_theme_run_body by done. by apply Hbody.
  - by apply (exec_init_thrown _ _ _ (Some (resolve props w t))) in Hi as [-> ->].
Qed.

Lemma inline_script_agrees_applyTheme_witness :
  root_theme (document (outcome_state (inline_script class_props
                (world_of [("theme", "system")] true)))) =
  root_theme (document (outcome_state (applyTheme class_props (Some "system")
                (world_of [("theme", "system")] true)))).
Proof.
  refine (proj2 (inline_script_agrees_applyTheme class_props
            (world_of [("theme", "system")] true) _ _ _ _ _ _ _ _));
    [reflexivity | reflexivity | reflexivity | reflexivity | reflexivity
    | reflexivity | discriminate | reflexivity].
Defined.

(** C1. The script should write the theme [applyTheme] computes for the
    same preference, compound [system-<suffix>] preferences included.  It
    does not: with [enableMultipleSystemThemes] on, the stored preference
    [system-hc] and a matching dark-mode query, the script writes
    [system-hc] on the root where [applyTheme] writes [dark-hc], in
    attribute mode and in class mode alike. *)
Theorem inline_script_misses_compound_system :
  let w := world_of [("theme", "system-hc")] true in
  getTheme false w (storageKey sample_props) (Some (defaultTheme sample_props))
    = Some "system-hc" ∧
  attributes (document (outcome_state (inline_script sample_props w)))
    !! "data-theme" = Some "system-hc" ∧
  attributes (document (outcome_state (applyTheme sample_props (Some "system-hc") w)))
    !! "data-theme" = Some "dark-hc" ∧
  classList (document (outcome_state (inline_script compound_class_props w)))
    = ["system-hc"] ∧
  classList (document (outcome_state (applyTheme compound_class_props (Some "system-hc") w)))
    = ["dark-hc"].
Proof. repeat split; vm_compute; reflexivity. Qed.

(** ** C2: the resolved theme *)

(** C2. For a persisted, non-empty preference [p] read in the browser:
    [system] resolves to [dark] when the media query matches and to [light]
    otherwise; with [enableMultipleSystemThemes], a preference
    [system-<rest>] resolves to the system name followed by [-<rest>]; every
    other preference resolves to itself. *)
Theorem getResolvedTheme_derivation (w : World) (key p : string)
    (fallback : option string) (multi : bool) :
  denied (storage w) = false →
  items (storage w) !! key = Some p →
  p ≠ "" →
  let sys := if matches (media w) then "dark" else "light" in
  (p = "system" → getResolvedTheme false w key fallback multi = Some sys) ∧
  (∀ rest, multi = true → p = "system-" +:+ rest →
     getResolvedTheme false w key fallback multi = Some (sys +:+ "-" +:+ rest)) ∧
  (p ≠ "system" → multi = false ∨ startsWith p "system-" = false →
     getResolvedTheme false w key fallback multi = Some p).
Proof.
  intros Hd Hp Hne sys.
  assert (Ht : truthy p = true) by by apply truthy_true.
  assert (Hg : getTheme false w key fallback = Some p).
  { unfold getTheme, getItem. rewrite Hd, Hp.
    rewrite (or_truthy (Some p) None) by done. by rewrite or_truthy. }
  unfold getResolvedTheme. rewrite Hg, Ht. simpl.
  split; [|split].
  - intros ->. reflexivity.
  - intros rest -> ->.
    change (String.eqb ("system-" +:+ rest) "system") with false.
    rewrite (startsWith_append "system-" rest). simpl.
    change (JS.substring 6 ("system-" +:+ rest)) with ("-" +:+ rest).
    reflexivity.
  - intros Hs Hm. destruct (String.eqb_spec p "system"); [done|].
    destruct Hm as [-> | ->]; [done | by rewrite andb_false_r].
Qed.

Lemma getResolvedTheme_derivation_witness :
  getResolvedTheme false (world_of [("theme", "system-hc")] true) "theme"
    (Some "light") true = Some "dark-hc".
Proof.
  refine (proj1 (proj2 (getResolvedTheme_derivation
            (world_of [("theme", "system-hc")] true) "theme" "system-hc"
            (Some "light") true _ _ _)) "hc" _ _);
    [reflexivity | reflexivity | discriminate | reflexivity | reflexivity].
Defined.

(** ** C3: the published themes *)

(** *** Sets in insertion order *)

Lemma elem_of_Set_add (x y : string) (s : list string) :
  x ∈ Set_add y s ↔ x ∈ s ∨ x = y.
Proof.
  unfold Set_add. destruct (includes s y) eqn:E.
  - apply includes_elem_of in E. split; [by left | by intros [?| ->]].
  - rewrite elem_of_app, list_elem_of_singleton. done.
Qed.

Lemma NoDup_Set_add (y : string) (s : list string) : NoDup s → NoDup (Set_add y s).
Proof.
  intros Hs. unfold Set_add. destruct (includes s y) eqn:E; [done|].
  apply NoDup_app. split; [done|]. split; [|apply NoDup_singleton].
  intros x Hx ->%list_elem_of_singleton.
  apply includes_elem_of in Hx. congruence.
Qed.

Lemma Set_add_fold {A} (f : A → string) (l : list A) (s : list string) :
  let r := fold_left (λ s a, Set_add (f a) s) l s in
  (NoDup s → NoDup r) ∧ (∀ x, x ∈ r ↔ x ∈ s ∨ ∃ a, a ∈ l ∧ x = f a).
Proof.
  revert s. induction l as [|a l IH]; intros s; simpl.
  - split; [done|]. intros x. split; [by left|].
    intros [?|(a & Ha & _)]; [done | by apply elem_of_nil in Ha].
  - destruct (IH (Set_add (f a) s)) as [IH1 IH2]. split.
    + intros Hs. by apply IH1, NoDup_Set_add.
    + intros x. rewrite IH2, elem_of_Set_add. split.
      * intros [[?| ->]|(b & Hb & ->)]; [by left | right | right].
        -- exists a. split; [by left | done].
        -- exists b. split; [by right | done].
      * intros [?|(b & Hb & ->)]; [by left; left|].
        apply elem_of_cons in Hb as [->|Hb]; [by left; right|].
        right. by exists b.
Qed.

Lemma Set_new_spec (l : list string) :
  NoDup (Set_new l) ∧ ∀ x, x ∈ Set_new l ↔ x ∈ l.
Proof.
  destruct (Set_add_fold (λ x, x) l []) as [H1 H2]. split.
  - apply H1. constructor.
  - intros x. unfold Set_new. rewrite H2. split.
    + intros [H|(a & Ha & ->)]; [by apply elem_of_nil in H | done].
    + intros H. right. by exists x.
Qed.

(** *** Light and dark variants *)

Lemma startsWith_light_dash (r : string) :
  startsWith ("light" +:+ "-" +:+ r) "light-" = true.
Proof. apply (startsWith_append "light-" r). Qed.

Lemma startsWith_dark_dash (r : string) :
  startsWith ("dark" +:+ "-" +:+ r) "dark-" = true.
Proof. apply (startsWith_append "dark-" r). Qed.

Lemma theme_key_light (k : string) :
  suffix_key k →
  theme_key ("light" +:+ k) = Some k ∧
  is_light ("light" +:+ k) = true ∧ is_dark ("light" +:+ k) = false.
Proof.
  intros [->|(r & ->)]; [by repeat split|].
  unfold theme_key, is_light, is_dark. rewrite startsWith_light_dash.
  by repeat split.
Qed.

Lemma theme_key_dark (k : string) :
  suffix_key k →
  theme_key ("dark" +:+ k) = Some k ∧
  is_light ("dark" +:+ k) = false ∧ is_dark ("dark" +:+ k) = true.
Proof.
  intros [->|(r & ->)]; [by repeat split|].
  unfold theme_key, is_light, is_dark. rewrite startsWith_dark_dash.
  by repeat split.
Qed.

Lemma theme_key_cases (t : string) :
  (∃ k, suffix_key k ∧ t = "light" +:+ k) ∨
  (∃ k, suffix_key k ∧ t = "dark" +:+ k) ∨
  (theme_key t = None ∧ ∀ k, suffix_key k → t ≠ "light" +:+ k ∧ t ≠ "dark" +:+ k).
Proof.
  destruct (startsWith t "light-") eqn:L.
  { left. apply startsWith_inv in L. simpl in L.
    exists ("-" +:+ JS.substring 6 t). split; [right; by eexists | exact L]. }
  destruct (startsWith t "dark-") eqn:D.
  { right; left. apply startsWith_inv in D. simpl in D.
    exists ("-" +:+ JS.substring 5 t). split; [right; by eexists | exact D]. }
  destruct (String.eqb_spec t "light") as [->|Hl].
  { left. exists "". split; [by left | done]. }
  destruct (String.eqb_spec t "dark") as [->|Hd].
  { right; left. exists "". split; [by left | done]. }
  right; right. split.
  - unfold theme_key. rewrite L, D. simpl.
    apply String.eqb_neq in Hl, Hd. by rewrite Hl, Hd.
  - intros k [->|(r & ->)]; split; intros ->; try done.
    + by rewrite startsWith_light_dash in L.
    + by rewrite startsWith_dark_dash in D.
Qed.

(** *** The record of candidate system themes *)

Lemma record_get_app (m : SystemRecord) (k k' : string) (v : SystemPair) :
  record_get (m ++ [(k, v)]) k' =
  match record_get m k' with
  | Some x => Some x
  | None => if String.eqb k k' then Some v else None
  end.
Proof.
  induction m as [|[k0 v0] m IH]; simpl; [done|].
  by destruct (String.eqb k0 k').
Qed.

Lemma record_get_alter (f : SystemPair → SystemPair) (m : SystemRecord)
    (k k' : string) :
  record_get (record_alter f k m) k' =
  if String.eqb k k' then f <$> record_get m k else record_get m k'.
Proof.
  induction m as [|[k0 v0] m IH]; simpl.
  - by destruct (String.eqb k k').
  - destruct (String.eqb_spec k0 k) as [E0|E0]; simpl.
    + subst k0. by destruct (String.eqb_spec k k').
    + rewrite IH. destruct (String.eqb_spec k k') as [E|E]; [|done].
      subst k'. by rewrite (proj2 (String.eqb_neq k0 k) E0).
Qed.

Lemma record_keys_alter (f : SystemPair → SystemPair) (m : SystemRecord) (k : string) :
  map fst (record_alter f k m) = map fst m.
Proof.
  induction m as [|[k0 v0] m IH]; simpl; [done|].
  destruct (String.eqb k0 k); simpl; by rewrite ?IH.
Qed.

Lemma record_get_None (m : SystemRecord) (k : string) :
  record_get m k = None ↔ k ∉ map fst m.
Proof.
  induction m as [|[k0 v0] m IH]; simpl.
  - split; [intros _; apply not_elem_of_nil | done].
  - rewrite not_elem_of_cons. destruct (String.eqb_spec k0 k) as [->|Hk].
    + split; [done | by intros [? _]].
    + rewrite IH. split; [by split | by intros [_ ?]].
Qed.

Lemma record_get_elem_of (m : SystemRecord) (k : string) (v : SystemPair) :
  NoDup (map fst m) → (record_get m k = Some v ↔ (k, v) ∈ m).
Proof.
  induction m as [|[k0 v0] m IH]; simpl; intros Hn.
  - split; [done | by intros ?%elem_of_nil].
  - apply NoDup_cons in Hn as [Hk0 Hn]. rewrite elem_of_cons.
    destruct (String.eqb_spec k0 k) as [->|Hk].
    + split; [intros [= ->]; by left|].
      intros [[= ->]|Hin]; [done|]. exfalso. apply Hk0.
      apply list_elem_of_fmap. by exists (k, v).
    + rewrite IH by done. split; [by right|]. by intros [[= -> ->]|?].
Qed.

Lemma record_inv_nil : record_inv [] [].
Proof.
  split; simpl.
  - constructor.
  - done.
  - intros k _ [H|H]; by apply elem_of_nil in H.
Qed.

Lemma append_light_inj (k k' : string) : "light" +:+ k = "light" +:+ k' → k = k'.
Proof. apply (inj (String.app "light")). Qed.

Lemma append_dark_inj (k k' : string) : "dark" +:+ k = "dark" +:+ k' → k = k'.
Proof. apply (inj (String.app "dark")). Qed.

Lemma light_neq_dark (k k' : string) : "light" +:+ k ≠ "dark" +:+ k'.
Proof. done. Qed.

Lemma record_inv_step (m : SystemRecord) (seen : list string) (t : string) :
  record_inv m seen → record_inv (note_theme m t) (seen ++ [t]).
Proof.
  intros [Hkeys Hentry Hpresent].
  set (m1 := λ k, match record_get m k with
                  | Some _ => m
                  | None => m ++ [(k, {| light := false; dark := false |})]
                  end).
  assert (Hm1keys : ∀ k, NoDup (map fst (m1 k))).
  { intros k. unfold m1. destruct (record_get m k) eqn:E; [done|].
    rewrite map_app. simpl. apply NoDup_app. split; [done|].
    split; [|apply NoDup_singleton].
    intros x Hx ->%list_elem_of_singleton. by apply record_get_None in E. }
  assert (Hm1get : ∀ k k', record_get (m1 k) k' =
            match record_get m k' with
            | Some v => Some v
            | None => if String.eqb k k'
                      then Some {| light := false; dark := false |} else None
            end).
  { intros k k'. unfold m1. destruct (record_get m k) eqn:E.
    - destruct (record_get m k') eqn:E'; [done|].
      destruct (String.eqb_spec k k') as [->|]; [congruence | done].
    - apply record_get_app. }
  destruct (theme_key_cases t) as [(k & Hk & ->)|[(k & Hk & ->)|[Hnone Hno]]].
  - (* a light variant *)
    destruct (theme_key_light k Hk) as (Hkey & Hl & Hd).
    unfold note_theme. rewrite Hkey. fold (is_light ("light" +:+ k)).
    fold (is_dark ("light" +:+ k)). rewrite Hl, Hd. fold (m1 k).
    split.
    + by rewrite record_keys_alter.
    + intros k' v. rewrite record_get_alter, !Hm1get.
      setoid_rewrite elem_of_app. setoid_rewrite list_elem_of_singleton.
      destruct (String.eqb_spec k k') as [<-|Hne].
      * rewrite String.eqb_refl.
        destruct (record_get m k) as [v0|] eqn:E; simpl; intros [= <-]; simpl.
        -- destruct (Hentry k v0 E) as (_ & _ & Hd0).
           split; [done|]. split; [split; [by right | done]|].
           rewrite Hd0. split; [by left|]. intros [?|?]; [done|].
           by destruct (light_neq_dark k k).
        -- split; [done|]. split; [split; [by right | done]|].
           split; [done|]. intros [H|H].
           ++ destruct (Hpresent k Hk (or_intror H)) as [? ?]. congruence.
           ++ by destruct (light_neq_dark k k).
      * destruct (record_get m k') as [v0|] eqn:E; simpl; [|done]. intros [= <-].
        destruct (Hentry k' v0 E) as (Hs & Hl0 & Hd0).
        split; [done|]. rewrite Hl0, Hd0. split.
        -- split; [by left|]. intros [?|?%append_light_inj]; [done | congruence].
        -- split; [by left|]. intros [?|?]; [done|].
           by destruct (light_neq_dark k k').
    + intros k' Hk' Hin. rewrite record_get_alter, !Hm1get.
      destruct (String.eqb_spec k k') as [<-|Hne].
      * rewrite String.eqb_refl. by destruct (record_get m k).
      * assert (is_Some (record_get m k')) as [v ->]; [|done].
        apply Hpresent; [done|].
        destruct Hin as [Hin|Hin]; apply elem_of_app in Hin as [Hin|Hin%list_elem_of_singleton].
        -- by left.
        -- apply append_light_inj in Hin. congruence.
        -- by right.
        -- by destruct (light_neq_dark k k').
  - (* a dark variant *)
    destruct (theme_key_dark k Hk) as (Hkey & Hl & Hd).
    unfold note_theme. rewrite Hkey. fold (is_light ("dark" +:+ k)).
    fold (is_dark ("dark" +:+ k)). rewrite Hl, Hd. fold (m1 k).
    split.
    + by rewrite record_keys_alter.
    + intros k' v. rewrite record_get_alter, !Hm1get.
      setoid_rewrite elem_of_app. setoid_rewrite list_elem_of_singleton.
      destruct (String.eqb_spec k k') as [<-|Hne].
      * rewrite String.eqb_refl.
        destruct (record_get m k) as [v0|] eqn:E; simpl; intros [= <-]; simpl.
        -- destruct (Hentry k v0 E) as (_ & Hl0 & _).
           split; [done|]. split; [|split; [by right | done]].
           rewrite Hl0. split; [by left|]. intros [?|?]; [done|].
           by destruct (light_neq_dark k k).
        -- split; [done|]. split; [|split; [by right | done]].
           split; [done|]. intros [H|H].
           ++ destruct (Hpresent k Hk (or_introl H)) as [? ?]. congruence.
           ++ by destruct (light_neq_dark k k).
      * destruct (record_get m k') as [v0|] eqn:E; simpl; [|done]. intros [= <-].
        destruct (Hentry k' v0 E) as (Hs & Hl0 & Hd0).
        split; [done|]. rewrite Hl0, Hd0. split.
        -- split; [by left|]. intros [?|?]; [done|].
           by destruct (light_neq_dark k' k).
        -- split; [by left|]. intros [?|?%append_dark_inj]; [done | congruence].
    + intros k' Hk' Hin. rewrite record_get_alter, !Hm1get.
      destruct (String.eqb_spec k k') as [<-|Hne].
      * rewrite String.eqb_refl. by destruct (record_get m k).
      * assert (is_Some (record_get m k')) as [v ->]; [|done].
        apply Hpresent; [done|].
        destruct Hin as [Hin|Hin]; apply elem_of_app in Hin as [Hin|Hin%list_elem_of_singleton].
        -- by left.
        -- by destruct (light_neq_dark k' k).
        -- by right.
        -- apply append_dark_inj in Hin. congruence.
  - (* neither *)
    unfold note_theme. rewrite Hnone. split; [done | |].
    + intros k v Hv. destruct (Hentry k v Hv) as (Hs & Hl0 & Hd0).
      destruct (Hno k Hs) as [Hnl Hnd].
      split; [done|]. rewrite Hl0, Hd0, !elem_of_app, !list_elem_of_singleton.
      split; (split; [by left|]); by intros [?|?].
    + intros k Hk Hin. apply Hpresent; [done|].
      destruct (Hno k Hk) as [Hnl Hnd].
      rewrite !elem_of_app, !list_elem_of_singleton in Hin.
      destruct Hin as [[?|?]|[?|?]]; [by left | done | by right | done].
Qed.

Lemma record_inv_fold (l : list string) (m : SystemRecord) (seen : list string) :
  record_inv m seen → record_inv (fold_left note_theme l m) (seen ++ l).
Proof.
  revert m seen. induction l as [|t l IH]; intros m seen H; simpl.
  - by rewrite app_nil_r.
  - rewrite (assoc_L (++) seen [t] l : seen ++ t :: l = (seen ++ [t]) ++ l).
    by apply IH, record_inv_step.
Qed.

Lemma systemThemes_spec (l : list string) (k : string) :
  k ∈ map fst (List.filter (λ kv, light (snd kv) && dark (snd kv))
                 (fold_left note_theme l []))
  ↔ suffix_key k ∧ "light" +:+ k ∈ l ∧ "dark" +:+ k ∈ l.
Proof.
  destruct (record_inv_fold l [] [] record_inv_nil) as [Hkeys Hentry Hpresent].
  simpl in *. set (m := fold_left note_theme l []) in *.
  rewrite list_elem_of_fmap. split.
  - intros ([k' v] & -> & Hin). simpl.
    apply list_elem_of_In, List.filter_In in Hin as [Hin Hb].
    apply list_elem_of_In, record_get_elem_of in Hin; [|done].
    destruct (Hentry _ _ Hin) as (Hs & Hl & Hd).
    simpl in Hb. apply andb_true_iff in Hb as [Hb1 Hb2].
    split; [done|]. split; [by apply Hl | by apply Hd].
  - intros (Hs & Hl & Hd).
    destruct (Hpresent k Hs (or_introl Hl)) as [v Hv].
    exists (k, v). split; [done|].
    apply list_elem_of_In, List.filter_In. split.
    + by apply list_elem_of_In, record_get_elem_of.
    + destruct (Hentry _ _ Hv) as (_ & Hl' & Hd'). simpl.
      apply andb_true_iff. split; [by apply Hl' | by apply Hd'].
Qed.

(** C3. With [enableSystem] off the published themes are the configured
    list.  With [enableSystem] on they hold no duplicate, and a name is
    published exactly when it is configured, or is [system], or (with
    [enableMultipleSystemThemes]) is [system] followed by a suffix key whose
    light and dark variants are both configured: [light] and [dark] for the
    empty key, [light-<suffix>] and [dark-<suffix>] for the key
    [-<suffix>]. *)
Theorem providerThemes_spec (props : Props) :
  (enableSystem props = false → providerThemes props = themes props) ∧
  (enableSystem props = true →
     NoDup (providerThemes props) ∧
     ∀ x, x ∈ providerThemes props ↔
       x ∈ themes props ∨ x = "system" ∨
       (enableMultipleSystemThemes props = true ∧
        ∃ k, suffix_key k ∧ x = "system" +:+ k ∧
             "light" +:+ k ∈ themes props ∧ "dark" +:+ k ∈ themes props)).
Proof.
  unfold providerThemes. split; intros ->; simpl; [done|].
  destruct (Set_new_spec (themes props)) as [Hnd Hin].
  destruct (enableMultipleSystemThemes props).
  - match goal with
    | |- context [fold_left ?f ?l ?s] =>
        destruct (Set_add_fold (λ k, "system" +:+ k) l s) as [H1 H2]
    end.
    split; [by apply H1, NoDup_Set_add|].
    intros x. rewrite H2, elem_of_Set_add, Hin. split.
    + intros [[?| ->]|(k & Hk & ->)]; [by left | by right; left|].
      right; right. split; [done|]. exists k.
      apply systemThemes_spec in Hk as (? & ? & ?). done.
    + intros [?|[->|(_ & k & Hs & -> & Hl & Hd)]]; [by left; left | by left; right|].
      right. exists k. split; [|done]. by apply systemThemes_spec.
  - split; [by apply NoDup_Set_add|].
    intros x. rewrite elem_of_Set_add, Hin. split.
    + intros [?| ->]; [by left | by right; left].
    + intros [?|[->|(? & _)]]; [by left | by right | done].
Qed.

Lemma providerThemes_spec_witness :
  "system-hc" ∈ providerThemes sample_props.
Proof.
  refine (proj2 (proj2 (proj2 (providerThemes_spec sample_props) _) "system-hc") _);
    [reflexivity|].
  right; right. split; [reflexivity|].
  exists "-hc". split; [right; by exists "hc"|].
  split; [reflexivity|]. split.
  - apply list_elem_of_In. simpl. tauto.
  - apply list_elem_of_In. simpl. tauto.
Defined.

(** ** C4: what the document root shows after [applyTheme] *)

Lemma filter_known_removed (known cl : list string) :
  List.filter (includes known) (List.filter (λ c, negb (includes known c)) cl) = [].
Proof.
  induction cl as [|c cl IH]; simpl; [done|].
  destruct (includes known c) eqn:E; simpl; [done | by rewrite E].
Qed.

Lemma known_after_write (known cl cl1 cl2 : list string) (n : string) :
  classList_remove known cl = Normal cl1 →
  classList_add n cl1 = Normal cl2 →
  List.filter (includes known) cl2 = if includes known n then [n] else [].
Proof.
  unfold classList_remove, classList_add.
  destruct (forallb valid_token known); [|done]. intros [= <-].
  destruct (valid_token n); [|done]. intros [= <-].
  destruct (includes known n) eqn:E.
  - destruct (includes (List.filter _ cl) n) eqn:F.
    + apply includes_true, List.filter_In in F as [_ F]. by rewrite E in F.
    + rewrite List.filter_app, filter_known_removed. simpl. by rewrite E.
  - destruct (includes (List.filter _ cl) n).
    + apply filter_known_removed.
    + rewrite List.filter_app, filter_known_removed. simpl. by rewrite E.
Qed.

(** C4, as stated, fails: in class mode with a value map that has no entry
    for the theme, [applyTheme] removes the known classes and adds none, so
    the root shows no known theme rather than exactly one. *)
Lemma applyTheme_one_theme_counterexample :
  ∃ w', applyTheme partial_map_props (Some "dark") (world_with_classes ["l"]) = Done w' ∧
        ¬ reflects_one_theme partial_map_props (document w').
Proof.
  eexists. split; [reflexivity|].
  unfold reflects_one_theme. simpl. by intros [a H].
Qed.

(** C4, amended. For [applyTheme] of a non-empty theme whose value-map
    lookup is decided by the map's own properties: in class mode, when the
    known values and the name to write are valid class tokens, the
    application completes and the known values present as classes are
    exactly the mapped name if that name is non-empty and known, and none
    otherwise, so at most one; in attribute mode, when the attribute is a
    plain attribute name, the application completes and the attribute holds
    the mapped name if it is non-empty and is absent otherwise. *)
Theorem applyTheme_at_most_one_theme (props : Props) (t : string) (w : World) :
  t ≠ "" →
  own_lookup props (resolve props w t) = true →
  let name := attr_name props (resolve props w t) in
  (attribute props = "class" →
   forallb valid_token (attrs props) = true →
   (∀ n, name = Some n → n ≠ "" → valid_token n = true) →
   ∃ w', applyTheme props (Some t) w = Done w' ∧
     known_classes props (document w') =
       match name with
       | Some n => if truthy n && includes (attrs props) n then [n] else []
       | None => []
       end) ∧
  (plain_attribute (attribute props) = true →
   ∃ w', applyTheme props (Some t) w = Done w' ∧
     attributes (document w') !! attribute props =
       match name with
       | Some n => if truthy n then Some n else None
       | None => None
       end).
Proof.
  intros Ht _ name. apply truthy_true in Ht.
  unfold applyTheme. simpl. rewrite Ht. simpl. fold name.
  set (w1 := if disableTransitionOnChange props then disableAnimation w else w).
  unfold write_name. split.
  - intros Hc Hk Hn. rewrite Hc. simpl.
    destruct (classList_remove (attrs props) (classList (document w1))) as [cl1|] eqn:Hr.
    2:{ unfold classList_remove in Hr. by rewrite Hk in Hr. }
    destruct name as [n|]; simpl.
    + destruct (truthy n) eqn:Tn; simpl.
      * destruct (classList_add n cl1) as [cl2|] eqn:Ha.
        2:{ unfold classList_add in Ha. rewrite Hn in Ha; [done | done | by apply truthy_true]. }
        eexists. split; [reflexivity|].
        unfold known_classes.
        destruct (disableTransitionOnChange props), (enableColorScheme props); simpl;
          by apply (known_after_write _ _ _ _ _ Hr Ha).
      * eexists. split; [reflexivity|]. unfold known_classes.
        unfold classList_remove in Hr. rewrite Hk in Hr. injection Hr as <-.
        destruct (disableTransitionOnChange props), (enableColorScheme props); simpl;
          apply filter_known_removed.
    + eexists. split; [reflexivity|]. unfold known_classes.
      unfold classList_remove in Hr. rewrite Hk in Hr. injection Hr as <-.
      destruct (disableTransitionOnChange props), (enableColorScheme props); simpl;
        apply filter_known_removed.
  - intros Hc. apply plain_attribute_not_class in Hc. rewrite Hc.
    destruct name as [n|]; simpl.
    + destruct (truthy n); eexists; (split; [reflexivity|]);
        destruct (disableTransitionOnChange props), (enableColorScheme props); simpl;
        by rewrite ?lookup_insert_eq, ?lookup_delete_eq.
    + eexists; (split; [reflexivity|]);
        destruct (disableTransitionOnChange props), (enableColorScheme props); simpl;
        by rewrite ?lookup_insert_eq, ?lookup_delete_eq.
Qed.

Lemma applyTheme_at_most_one_theme_witness :
  (∃ w', applyTheme class_props (Some "dark") (world_with_classes ["light"; "page"]) = Done w' ∧
         known_classes class_props (document w') = ["dark"]) ∧
  (∃ w', applyTheme sample_props (Some "system-hc") (world_of [] true) = Done w' ∧
         attributes (document w') !! "data-theme" = Some "dark-hc").
Proof.
  split.
  - refine (proj1 (applyTheme_at_most_one_theme class_props "dark"
              (world_with_classes ["light"; "page"]) _ _) _ _ _).
    + discriminate.
    + reflexivity.
    + reflexivity.
    + reflexivity.
    + intros n [= <-] _. reflexivity.
  - refine (proj2 (applyTheme_at_most_one_theme sample_props "system-hc"
              (world_of [] true) _ _) _); [discriminate | reflexivity | reflexivity].
Defined.

(** ** C5: the colour scheme is written with the theme *)

(** C5, as stated, fails for the script: for the forced theme [pink],
    which is neither [light] nor [dark], the script is the class removal
    followed by the class write that [updateDOM] emits, with no
    colour-scheme statement, although [enableColorScheme] is on. *)
Lemma updateDOM_colorScheme_counterexample :
  enableColorScheme forced_props = true ∧
  forcedTheme forced_props = Some "pink" ∧
  updateDOM forced_props "pink" false true = "c.add('pink')" ∧
  scriptSrc forced_props (attrs forced_props) =
    "!function(){var d=document.documentElement,c=d.classList;c.remove('light','dark','pink');c.add('pink')}()" ∧
  ¬ writes_colorScheme_with_theme (updateDOM_stmts forced_props "pink" false true).
Proof.
  split; [reflexivity|]. split; [reflexivity|]. split; [reflexivity|].
  split; [reflexivity|].
  intros H. specialize (H eq_refl). discriminate H.
Qed.

Lemma no_colorScheme_without_flag (props : Props) (name : string) (literal : bool) :
  existsb is_colorScheme_write (updateDOM_stmts props name literal false) = false.
Proof.
  unfold updateDOM_stmts. rewrite andb_false_r. simpl.
  destruct (String.eqb (attribute props) "class"), literal; simpl;
    by try destruct (truthy_opt _).
Qed.

Lemma colorScheme_exec_fallback (props : Props) (e : string) (d : Dom) :
  enableColorScheme props = true →
  e = "light" ∨ e = "dark" →
  colorScheme (exec_fallback (fallback props) (Some e) d) = Some e.
Proof.
  intros Hcs He. unfold fallback. rewrite Hcs. simpl.
  destruct (truthy_opt _); simpl; by destruct He as [-> | ->].
Qed.

(** A stored [light] or [dark] gets its colour scheme from the trailing
    statement of the script. *)
Lemma inline_script_stored_colorScheme (props : Props) (w : World) (e : string) :
  enableColorScheme props = true →
  forcedTheme props = None →
  value props = None →
  denied (storage w) = false →
  items (storage w) !! storageKey props = Some e →
  e = "light" ∨ e = "dark" →
  (attribute props = "class" → forallb valid_token (attrs props) = true) →
  colorScheme (document (outcome_state (inline_script props w))) = Some e.
Proof.
  intros Hcs Hf Hv Hd He Hld Htok.
  assert (Ht : truthy e = true) by by destruct Hld as [-> | ->].
  assert (Hvt : valid_token e = true) by by destruct Hld as [-> | ->].
  assert (Hns : bool_decide (Some e = Some "system") = false).
  { apply bool_decide_eq_false_2. by destruct Hld as [-> | ->]. }
  assert (Hstored : ∀ d x, exec_init (init props (attrs props)) (document w) = Done d →
    ∃ d', exec_stmts (init props (attrs props)) {| var_e := Some e; var_x := x |}
            (updateDOM_stmts props (stored_name props) true true) d = Done d').
  { intros d x. unfold updateDOM_stmts, stored_name, init, exec_init. rewrite Hv. simpl.
    rewrite !andb_false_r.
    destruct (String.eqb (attribute props) "class"); simpl; rewrite Ht.
    - destruct (classList_remove _ _); [|done]. intros _.
      unfold classList_add. rewrite Hvt. by eexists.
    - intros _. by eexists. }
  assert (Hinit : ∃ d, exec_init (init props (attrs props)) (document w) = Done d).
  { unfold exec_init, init, classList_remove.
    destruct (String.eqb_spec (attribute props) "class") as [Hc|Hc]; [|by eexists].
    rewrite (Htok Hc). by eexists. }
  destruct Hinit as [d Hi].
  unfold inline_script, script, run_script. rewrite Hf. simpl.
  destruct (enableSystem props); rewrite Hi; simpl;
    unfold run_body, getItem; rewrite Hd, He; simpl; rewrite ?Hns, Ht; simpl.
  - destruct (Hstored d (value props) Hi) as [d' ->]. simpl.
    by apply colorScheme_exec_fallback.
  - destruct (Hstored d (value props) Hi) as [d' ->]. simpl.
    by apply colorScheme_exec_fallback.
Qed.

(** C5, amended. With [enableColorScheme] on and an attribute that is
    [class] or a plain attribute name: every application of [applyTheme]
    (whose value-map lookup is decided by the map's own properties) that
    completes its class or attribute write assigns the colour-scheme style
    in the same call, and one that throws assigns nothing; [updateDOM],
    called for [light] or [dark] with the colour scheme requested, emits the
    colour-scheme assignment first and then just what it emits without it;
    for a name that is no light or dark variant it emits no colour-scheme
    assignment at all; and a stored [light] or [dark] preference gets its
    colour scheme from the trailing statement of the same script run (plain
    spliced strings, no forced theme, no value map, readable storage, valid
    class tokens). *)
Theorem colorScheme_with_theme (props : Props) :
  enableColorScheme props = true →
  attribute_ok props = true →
  (∀ t w, t ≠ "" → own_lookup props (resolve props w t) = true →
     match applyTheme props (Some t) w with
     | Done w' =>
         colorScheme (document w') =
           getColorScheme (resolve props w t) (defaultColorScheme props) ∧
         root_theme (document w') =
           root_theme (outcome_state
             (write_name props (attr_name props (resolve props w t)) (document w)))
     | Thrown w' => colorScheme (document w') = colorScheme (document w)
     end) ∧
  (∀ name, includes colorSchemes name = true →
     updateDOM_stmts props name false true =
       SColorScheme name :: updateDOM_stmts props name false false ∧
     existsb is_colorScheme_write (updateDOM_stmts props name false false) = false) ∧
  (∀ name literal scs, getColorScheme name None = None →
     existsb is_colorScheme_write (updateDOM_stmts props name literal scs) = false) ∧
  (∀ w e, script_plain props = true →
     forcedTheme props = None → value props = None →
     denied (storage w) = false →
     items (storage w) !! storageKey props = Some e →
     e = "light" ∨ e = "dark" →
     (attribute props = "class" → forallb valid_token (attrs props) = true) →
     colorScheme (document (outcome_state (inline_script props w))) = Some e).
Proof.
  intros Hcs _. split; [|split; [|split]].
  - intros t w Ht _. apply truthy_true in Ht.
    pose proof (root_theme_applyTheme props t w Ht) as Hroot.
    unfold applyTheme in *. simpl in *. rewrite Ht in *. simpl in *.
    rewrite Hcs in *.
    destruct (disableTransitionOnChange props); simpl in *.
    + unfold write_name in *. simpl in *.
      destruct (String.eqb (attribute props) "class"); simpl in *.
      * destruct (classList_remove _ _); simpl in *; [|done].
        destruct (truthy_opt _); simpl in *; [|done].
        by destruct (classList_add _ _).
      * by destruct (truthy_opt _).
    + destruct (write_name _ _ _) as [d|d] eqn:Hw; simpl in *; [done|].
      unfold write_name in Hw.
      destruct (String.eqb (attribute props) "class").
      * destruct (classList_remove _ _); [|by injection Hw as <-].
        destruct (truthy_opt _); [|done].
        destruct (classList_add _ _); [done | by injection Hw as <-].
      * by destruct (truthy_opt _).
  - intros name Hin. split; [|apply no_colorScheme_without_flag].
    unfold updateDOM_stmts. rewrite Hcs, Hin. simpl.
    by destruct (String.eqb (attribute props) "class"), (truthy_opt _).
  - intros name literal scs Hn.
    assert (Hin : includes colorSchemes name = false).
    { unfold getColorScheme, includes, colorSchemes in *. simpl in *.
      destruct (String.eqb name "light"); [done|].
      destruct (String.eqb name "dark"); [|done].
      simpl in Hn. by destruct (startsWith name "light-"). }
    unfold updateDOM_stmts. rewrite Hin, andb_false_r. simpl.
    destruct (String.eqb (attribute props) "class"), literal; simpl;
      by try destruct (truthy_opt _).
  - intros w e _. by apply inline_script_stored_colorScheme.
Qed.

Lemma colorScheme_with_theme_witness :
  updateDOM_stmts sample_props "dark" false true =
    SColorScheme "dark" :: updateDOM_stmts sample_props "dark" false false
  ∧ colorScheme (document (outcome_state
      (inline_script sample_props (world_of [("theme", "dark")] false)))) = Some "dark".
Proof.
  split.
  - refine (proj1 (proj1 (proj2 (colorScheme_with_theme sample_props _ _)) "dark" _));
      reflexivity.
  - refine (proj2 (proj2 (proj2 (colorScheme_with_theme sample_props _ _)))
              (world_of [("theme", "dark")] false) "dark" _ _ _ _ _ _ _);
      [reflexivity | reflexivity | reflexivity | reflexivity | reflexivity
      | reflexivity | reflexivity | by right | discriminate].
Defined.

(** ** C6: storage events *)

(** C6. A storage event for the configured key sets the theme state to the
    event's new value, or to the default theme when the new value is null or
    empty; an event for any other key (or for no key) leaves the mounted
    component as it was. *)
Theorem handleStorage_sync (props : Props) (e : StorageEvent) (a : App) :
  (key e = Some (storageKey props) →
     (∀ v, newValue e = Some v → v ≠ "" →
        theme (state (handleStorage props e a)) = Some v) ∧
     (newValue e = None ∨ newValue e = Some "" →
        theme (state (handleStorage props e a)) = Some (defaultTheme props))) ∧
  (key e ≠ Some (storageKey props) → handleStorage props e a = a).
Proof.
  unfold handleStorage. split.
  - intros Hk. rewrite bool_decide_eq_true_2 by done. simpl.
    assert (Hs : ∀ t, theme (state (setTheme props t a)) = Some t).
    { intros t. unfold setTheme. by destruct (setItem _ _ _). }
    split.
    + intros v Hv Hne. rewrite Hs, Hv. simpl.
      by rewrite (proj2 (truthy_true v) Hne).
    + intros [Hv | Hv]; by rewrite Hs, Hv.
  - intros Hk. by rewrite bool_decide_eq_false_2.
Qed.

Lemma handleStorage_sync_witness :
  theme (state (handleStorage sample_props
                  {| key := Some "theme"; newValue := Some "dark" |}
                  (sample_app [("theme", "light")] "light"))) = Some "dark"
  ∧ theme (state (handleStorage sample_props
                  {| key := Some "theme"; newValue := None |}
                  (sample_app [("theme", "light")] "light"))) = Some "system"
  ∧ handleStorage sample_props {| key := Some "other"; newValue := Some "dark" |}
      (sample_app [("theme", "light")] "light")
    = sample_app [("theme", "light")] "light".
Proof.
  split; [|split].
  - refine (proj1 (proj1 (handleStorage_sync sample_props
              {| key := Some "theme"; newValue := Some "dark" |}
              (sample_app [("theme", "light")] "light")) _) "dark" _ _);
      [reflexivity | reflexivity | discriminate].
  - refine (proj2 (proj1 (handleStorage_sync sample_props
              {| key := Some "theme"; newValue := None |}
              (sample_app [("theme", "light")] "light")) _) _);
      [reflexivity | left; reflexivity].
  - refine (proj2 (handleStorage_sync sample_props
              {| key := Some "other"; newValue := Some "dark" |}
              (sample_app [("theme", "light")] "light")) _).
    discriminate.
Defined.

(** ** C7: [setTheme] writes one storage key *)

(** C7. [setTheme] stores the theme under the configured storage key when
    the storage accepts the write, and whatever the storage does, every
    other entry is as before: the new contents are the old ones or the old
    ones with that one key set, so no other entry is read or modified. *)
Theorem setTheme_single_key (props : Props) (t : string) (a : App) :
  let a' := setTheme props t a in
  (denied (storage (world a)) = false → full (storage (world a)) = false →
     items (storage (world a')) !! storageKey props = Some t) ∧
  (∀ k, k ≠ storageKey props →
     items (storage (world a')) !! k = items (storage (world a)) !! k) ∧
  (items (storage (world a')) = items (storage (world a)) ∨
   items (storage (world a')) = <[storageKey props := t]> (items (storage (world a)))).
Proof.
  unfold setTheme, setItem. simpl.
  destruct (denied (storage (world a))), (full (storage (world a))); simpl;
    repeat split; try done; try (intros k Hk; by rewrite ?lookup_insert_ne);
    try (by left); try (by right).
  intros _ _. by rewrite lookup_insert_eq.
Qed.

Lemma setTheme_single_key_witness :
  items (storage (world (setTheme sample_props "dark"
                           (sample_app [("theme", "light"); ("lang", "en")] "light"))))
    !! "theme" = Some "dark".
Proof.
  refine (proj1 (setTheme_single_key sample_props "dark"
            (sample_app [("theme", "light"); ("lang", "en")] "light")) _ _);
    reflexivity.
Defined.

(** ** C10: a failing storage *)

(** C10. When the storage throws, the exception is swallowed: [setTheme]
    still sets the theme state to the requested value and leaves the world
    alone, and in the browser [getTheme] returns its fallback. *)
Theorem storage_failure_swallowed (props : Props) (t : string) (a : App)
    (w : World) (k : string) (fallback : option string) :
  (denied (storage (world a)) = true ∨ full (storage (world a)) = true →
     setTheme props t a =
       {| state := {| theme := Some t; resolvedTheme := resolvedTheme (state a) |};
          world := world a |}) ∧
  (denied (storage w) = true → getTheme false w k fallback = fallback).
Proof.
  split.
  - intros H. unfold setTheme, setItem. simpl.
    destruct H as [-> | ->]; [done | by rewrite orb_true_r].
  - intros H. unfold getTheme, getItem. rewrite H. by rewrite or_falsy.
Qed.

Lemma storage_failure_swallowed_witness :
  theme (state (setTheme sample_props "dark"
                  {| state := {| theme := Some "light"; resolvedTheme := None |};
                     world := broken_world |})) = Some "dark"
  ∧ getTheme false broken_world "theme" (Some "system") = Some "system".
Proof.
  pose proof (storage_failure_swallowed sample_props "dark"
                {| state := {| theme := Some "light"; resolvedTheme := None |};
                   world := broken_world |}
                broken_world "theme" (Some "system")) as [H1 H2].
  split.
  - rewrite H1; [reflexivity | left; reflexivity].
  - apply H2. reflexivity.
Defined.

(** ** C9: [useTheme] without a provider *)

(** C9. Outside every provider [useTheme] returns the default context: its
    list of themes is empty and its [setTheme] changes nothing, whatever it
    is called with; a consumer rendered outside every provider sees just
    that context. *)
Theorem useTheme_outside_provider :
  useTheme None = defaultContext ∧
  ctx_themes (useTheme None) = [] ∧
  (∀ (t : string) (a : App), ctx_setTheme (useTheme None) t a = a) ∧
  (∀ isServer w, render isServer w None Consumer = RConsumer defaultContext).
Proof. repeat split. Qed.

(** ** C8: nested providers *)

Lemma element_nested_ind (P : element → Prop) :
  (∀ s, P (Text s)) →
  (∀ tag cs, Forall P cs → P (Host tag cs)) →
  P Consumer →
  (∀ p cs, Forall P cs → P (ThemeProvider p cs)) →
  ∀ e, P e.
Proof.
  intros HT HH HC HP. fix IH 1. intros [s | tag cs | | p cs].
  - apply HT.
  - apply HH. revert cs. fix IHcs 1. intros [|c cs]; constructor; [apply IH | apply IHcs].
  - apply HC.
  - apply HP. revert cs. fix IHcs 1. intros [|c cs]; constructor; [apply IH | apply IHcs].
Qed.

Lemma list_sum_zero (l : list nat) : Forall (λ n, n = 0) l → list_sum l = 0.
Proof. induction 1 as [|n l -> _ IH]; simpl; [done | exact IH]. Qed.

Lemma Forall_concat_all {A} (P : A → Prop) (ls : list (list A)) :
  Forall (Forall P) ls → Forall P (concat ls).
Proof. induction 1; simpl; [constructor | by apply Forall_app]. Qed.

(** Below a provider nothing creates state or scripts, and every consumer
    sees the provider's value. *)
Lemma render_below_provider (isServer : bool) (w : World) (c : UseThemeProps)
    (e : element) :
  count_providers (render isServer w (Some c) e) = 0 ∧
  count_scripts (render isServer w (Some c) e) = 0 ∧
  Forall (λ seen, seen = c) (seen_contexts (render isServer w (Some c) e)).
Proof.
  induction e as [s | tag cs IH | | p cs IH] using element_nested_ind; simpl.
  - by repeat split.
  - repeat split.
    + apply list_sum_zero. rewrite Forall_map, Forall_map.
      eapply Forall_impl; [exact IH | by intros ? (? & _)].
    + apply list_sum_zero. rewrite Forall_map, Forall_map.
      eapply Forall_impl; [exact IH | by intros ? (_ & ? & _)].
    + apply Forall_concat_all. rewrite Forall_map, Forall_map.
      eapply Forall_impl; [exact IH | by intros ? (_ & _ & ?)].
  - repeat split. by constructor.
  - repeat split.
    + apply list_sum_zero. rewrite Forall_map, Forall_map.
      eapply Forall_impl; [exact IH | by intros ? (? & _)].
    + apply list_sum_zero. rewrite Forall_map, Forall_map.
      eapply Forall_impl; [exact IH | by intros ? (_ & ? & _)].
    + apply Forall_concat_all. rewrite Forall_map, Forall_map.
      eapply Forall_impl; [exact IH | by intros ? (_ & _ & ?)].
Qed.

(** C8. A [ThemeProvider] rendered below another one renders to the fragment
    of its children, rendered in the context it found; the result holds no
    state container and no inline script, and every consumer in it sees the
    context of the provider above, which at the outermost provider is that
    provider's own value. *)
Theorem nested_provider_passthrough (isServer : bool) (w : World)
    (c : UseThemeProps) (p : ThemeProviderProps) (children : list element) :
  let nested := render isServer w (Some c) (ThemeProvider p children) in
  nested = RFragment (map (render isServer w (Some c)) children) ∧
  count_providers nested = 0 ∧
  count_scripts nested = 0 ∧
  Forall (λ seen, seen = c) (seen_contexts nested) ∧
  (∀ q, ∃ st script rest,
     render isServer w None (ThemeProvider q [ThemeProvider p children]) =
       RProvider st (providerValue (destructure q) st)
         [script; RFragment rest] ∧
     Forall (λ seen, seen = providerValue (destructure q) st)
       (concat (map seen_contexts rest))).
Proof.
  intros nested. split; [reflexivity|].
  destruct (render_below_provider isServer w c (ThemeProvider p children))
    as (Hp & Hs & Hc).
  repeat split; [exact Hp | exact Hs | exact Hc |].
  intros q. eexists _, _, _. split; [reflexivity|].
  set (v := providerValue _ _).
  destruct (render_below_provider isServer w v (ThemeProvider p children))
    as (_ & _ & Hv).
  exact Hv.
Qed.

(** * Further properties of the code *)

(** ** Helpers: colour scheme and stored theme *)

(** X1. [getColorScheme] gives [light] to [light] and its suffixed variants,
    [dark] to [dark] and its variants, and the fallback to every other
    theme: the final [colorSchemes.includes] test never decides. *)
Theorem getColorScheme_cases (t : string) (fb : option string) :
  (∀ k, suffix_key k → getColorScheme ("light" +:+ k) fb = Some "light") ∧
  (∀ k, suffix_key k → getColorScheme ("dark" +:+ k) fb = Some "dark") ∧
  ((∀ k, suffix_key k → t ≠ "light" +:+ k ∧ t ≠ "dark" +:+ k) →
     getColorScheme t fb = fb).
Proof.
  split; [|split].
  - intros k Hk. destruct (theme_key_light k Hk) as (_ & Hl & _).
    unfold getColorScheme. fold (is_light ("light" +:+ k)). by rewrite Hl.
  - intros k Hk. destruct (theme_key_dark k Hk) as (_ & Hl & Hd).
    unfold getColorScheme. fold (is_light ("dark" +:+ k)).
    fold (is_dark ("dark" +:+ k)). by rewrite Hl, Hd.
  - intros Hno.
    destruct (theme_key_cases t) as [(k & Hk & ->)|[(k & Hk & ->)|[_ _]]].
    + by destruct (Hno k Hk) as [? _].
    + by destruct (Hno k Hk) as [_ ?].
    + assert (Hl : is_light t = false).
      { destruct (is_light t) eqn:E; [|done]. unfold is_light in E.
        apply orb_true_iff in E as [E|E].
        - apply String.eqb_eq in E as ->.
          by destruct (Hno "" (or_introl eq_refl)) as [? _].
        - apply startsWith_inv in E. simpl in E.
          destruct (Hno ("-" +:+ JS.substring 6 t)) as [H _]; [right; by eexists|].
          by destruct H. }
      assert (Hd : is_dark t = false).
      { destruct (is_dark t) eqn:E; [|done]. unfold is_dark in E.
        apply orb_true_iff in E as [E|E].
        - apply String.eqb_eq in E as ->.
          by destruct (Hno "" (or_introl eq_refl)) as [_ ?].
        - apply startsWith_inv in E. simpl in E.
          destruct (Hno ("-" +:+ JS.substring 5 t)) as [_ H]; [right; by eexists|].
          by destruct H. }
      unfold getColorScheme. fold (is_light t). fold (is_dark t).
      rewrite Hl, Hd. unfold is_light, is_dark in *.
      apply orb_false_iff in Hl as [Hl _]. apply orb_false_iff in Hd as [Hd _].
      unfold includes, colorSchemes. simpl. by rewrite Hl, Hd.
Qed.

Lemma getColorScheme_cases_witness :
  getColorScheme "light-hc" None = Some "light" ∧
  getColorScheme "pink" (Some "dark") = Some "dark".
Proof.
  split.
  - refine (proj1 (getColorScheme_cases "" None) "-hc" _). right. by exists "hc".
  - refine (proj2 (proj2 (getColorScheme_cases "pink" (Some "dark"))) _).
    intros k [->|(r & ->)]; split; discriminate.
Defined.

Lemma getTheme_stored (w : World) (k s : string) (fb : option string) :
  denied (storage w) = false → items (storage w) !! k = Some s → s ≠ "" →
  getTheme false w k fb = Some s.
Proof.
  intros Hd Hs Hne. unfold getTheme, getItem. rewrite Hd, Hs.
  apply truthy_true in Hne.
  rewrite (or_truthy (Some s) None) by done. by rewrite or_truthy.
Qed.

Lemma getTheme_missing (w : World) (k : string) (fb : option string) :
  denied (storage w) = false →
  items (storage w) !! k = None ∨ items (storage w) !! k = Some "" →
  getTheme false w k fb = fb.
Proof.
  intros Hd Hs. unfold getTheme, getItem. rewrite Hd.
  destruct Hs as [-> | ->]; by rewrite !or_falsy.
Qed.

(** X2. In the browser [getTheme] returns the stored value when there is one
    and it is not empty, and its fallback otherwise: an empty stored string
    counts as no stored value.  On the server it returns [undefined]
    whatever the fallback. *)
Theorem getTheme_cases (w : World) (k : string) (fb : option string) :
  getTheme true w k fb = None ∧
  (denied (storage w) = false →
     (∀ s, items (storage w) !! k = Some s → s ≠ "" →
        getTheme false w k fb = Some s) ∧
     (items (storage w) !! k = None ∨ items (storage w) !! k = Some "" →
        getTheme false w k fb = fb)).
Proof.
  split; [done|]. intros Hd. split.
  - intros s Hs Hne. by apply getTheme_stored.
  - intros Hs. by apply getTheme_missing.
Qed.

Lemma getTheme_cases_witness :
  getTheme false (world_of [("theme", "")] false) "theme" (Some "system") = Some "system".
Proof.
  refine (proj2 (proj2 (getTheme_cases (world_of [("theme", "")] false) "theme"
            (Some "system")) _) _); [reflexivity | right; reflexivity].
Defined.

(** X3. The resolved theme is never [system] and never empty. *)
Theorem getResolvedTheme_never_system (isServer : bool) (w : World)
    (k : string) (fb : option string) (multi : bool) (r : string) :
  getResolvedTheme isServer w k fb multi = Some r → r ≠ "system" ∧ r ≠ "".
Proof.
  unfold getResolvedTheme. destruct (getTheme isServer w k fb) as [t|]; [|done].
  destruct (truthy t) eqn:Ht; simpl; [|done].
  destruct (String.eqb_spec t "system") as [->|Hs].
  - intros [= <-]. unfold getSystemTheme. by destruct (matches (media w)).
  - destruct (multi && startsWith t "system-").
    + intros [= <-]. unfold getSystemTheme. by destruct (matches (media w)).
    + intros [= <-]. split; [done|]. by apply truthy_true.
Qed.

Lemma getResolvedTheme_never_system_witness :
  "dark" ≠ "system" ∧ "dark" ≠ "".
Proof.
  apply (getResolvedTheme_never_system false (world_of [("theme", "system")] true)
           "theme" None false "dark").
  reflexivity.
Defined.

(** ** [applyTheme] *)

Lemma filter_unknown_idem (known cl : list string) :
  List.filter (λ c, negb (includes known c))
    (List.filter (λ c, negb (includes known c)) cl) =
  List.filter (λ c, negb (includes known c)) cl.
Proof.
  induction cl as [|c cl IH]; simpl; [done|].
  destruct (includes known c) eqn:E; simpl; [done|]. by rewrite E, IH.
Qed.

Lemma write_name_root (props : Props) (n : option string) (d1 d2 : Dom) :
  root_theme d1 = root_theme d2 →
  root_theme (outcome_state (write_name props n d1)) =
    root_theme (outcome_state (write_name props n d2)).
Proof.
  unfold root_theme. intros [= Hc Ha]. unfold write_name. rewrite Hc.
  destruct (String.eqb (attribute props) "class"); simpl.
  - destruct (classList_remove _ _); simpl; [|by rewrite Hc, Ha].
    destruct (truthy_opt n); simpl; [|by rewrite Ha].
    destruct (classList_add _ _); simpl; by rewrite Ha.
  - destruct (truthy_opt n); simpl; by rewrite Hc, Ha.
Qed.

Lemma write_name_outcome (props : Props) (n : option string) (d1 d2 : Dom) :
  match write_name props n d1, write_name props n d2 with
  | Done _, Done _ | Thrown _, Thrown _ => True
  | _, _ => False
  end.
Proof.
  unfold write_name, classList_remove, classList_add.
  destruct (String.eqb (attribute props) "class"); simpl.
  - destruct (forallb valid_token (attrs props)); simpl; [|done].
    destruct (truthy_opt n); simpl; [|done].
    by destruct (valid_token (default "" n)).
  - by destruct (truthy_opt n).
Qed.

Lemma write_name_idem (props : Props) (n : option string) (d : Dom) :
  root_theme (outcome_state (write_name props n (outcome_state (write_name props n d)))) =
  root_theme (outcome_state (write_name props n d)).
Proof.
  unfold write_name, root_theme.
  destruct (String.eqb (attribute props) "class"); simpl.
  - unfold classList_remove.
    destruct (forallb valid_token (attrs props)); simpl; [|done].
    destruct (truthy_opt n); simpl.
    2:{ by rewrite filter_unknown_idem. }
    unfold classList_add.
    destruct (valid_token (default "" n)); simpl.
    2:{ by rewrite filter_unknown_idem. }
    f_equal.
    set (rm := List.filter (λ c, negb (includes (attrs props) c))).
    set (x := default "" n).
    destruct (includes (rm (classList d)) x) eqn:Hin; simpl.
    + unfold rm. rewrite filter_unknown_idem. fold rm. by rewrite Hin.
    + unfold rm. rewrite List.filter_app, filter_unknown_idem. fold rm. simpl.
      destruct (includes (attrs props) x) eqn:Hk; simpl.
      * by rewrite app_nil_r, Hin.
      * assert (includes (rm (classList d) ++ [x]) x = true) as ->; [|done].
        apply includes_elem_of, elem_of_app. right. by apply list_elem_of_singleton.
  - destruct (truthy_opt n); simpl; f_equal.
    + apply insert_insert_eq.
    + apply delete_delete_eq.
Qed.

Lemma colorScheme_applyTheme (props : Props) (t : string) (w : World) :
  truthy t = true →
  colorScheme (document (outcome_state (applyTheme props (Some t) w))) =
  match write_name props (attr_name props (resolve props w t)) (document w) with
  | Done _ =>
      if enableColorScheme props
      then getColorScheme (resolve props w t) (defaultColorScheme props)
      else colorScheme (document w)
  | Thrown _ => colorScheme (document w)
  end.
Proof.
  intros Ht. unfold applyTheme. simpl. rewrite Ht. simpl.
  destruct (disableTransitionOnChange props); simpl.
  - unfold write_name. simpl.
    destruct (String.eqb (attribute props) "class"); simpl.
    + destruct (classList_remove _ _); simpl; [|done].
      destruct (truthy_opt _); simpl; [|by destruct (enableColorScheme props)].
      destruct (classList_add _ _); simpl; [|done].
      by destruct (enableColorScheme props).
    + destruct (truthy_opt _); by destruct (enableColorScheme props).
  - unfold write_name.
    destruct (String.eqb (attribute props) "class"); simpl.
    + destruct (classList_remove _ _); simpl; [|done].
      destruct (truthy_opt _); simpl; [|by destruct (enableColorScheme props)].
      destruct (classList_add _ _); simpl; [|done].
      by destruct (enableColorScheme props).
    + destruct (truthy_opt _); by destruct (enableColorScheme props).
Qed.

Lemma applyTheme_keeps_media (props : Props) (t : option string) (w : World) :
  media (outcome_state (applyTheme props t w)) = media w ∧
  storage (outcome_state (applyTheme props t w)) = storage w.
Proof.
  unfold applyTheme. destruct (truthy_opt t); simpl; [|done].
  destruct (disableTransitionOnChange props); simpl;
    by destruct (write_name _ _ _).
Qed.

(** X4. Applying the same theme twice leaves the document root as applying it
    once: same classes, same attributes, same colour scheme. *)
Theorem applyTheme_idempotent (props : Props) (t : option string) (w : World) :
  let once := outcome_state (applyTheme props t w) in
  let twice := outcome_state (applyTheme props t once) in
  root_theme (document twice) = root_theme (document once) ∧
  colorScheme (document twice) = colorScheme (document once).
Proof.
  intros once twice. subst twice.
  destruct t as [t|]; [|done].
  destruct (truthy t) eqn:Ht; [|by unfold once, applyTheme; simpl; rewrite Ht].
  assert (Hres : resolve props once t = resolve props w t).
  { unfold resolve, getSystemTheme, once.
    by rewrite (proj1 (applyTheme_keeps_media props (Some t) w)). }
  set (n := attr_name props (resolve props w t)) in *.
  assert (Hroot : root_theme (document once) =
                  root_theme (outcome_state (write_name props n (document w)))).
  { by apply root_theme_applyTheme. }
  split.
  - rewrite root_theme_applyTheme by done. rewrite Hres. fold n.
    rewrite (write_name_root props n (document once)
               (outcome_state (write_name props n (document w))) Hroot).
    by rewrite write_name_idem.
  - assert (Hcs : colorScheme (document once) =
      match write_name props n (document w) with
      | Done _ => if enableColorScheme props
                  then getColorScheme (resolve props w t) (defaultColorScheme props)
                  else colorScheme (document w)
      | Thrown _ => colorScheme (document w)
      end) by by apply colorScheme_applyTheme.
    rewrite colorScheme_applyTheme by done. rewrite Hres. fold n.
    pose proof (write_name_outcome props n (document once) (document w)) as Ho.
    destruct (write_name props n (document once)), (write_name props n (document w));
      try done.
    by destruct (enableColorScheme props).
Qed.




Lemma remove_first_snoc (x : string) (l : list string) :
  remove_first x (l ++ [x]) ≡ₚ l.
Proof.
  induction l as [|y l IH]; simpl.
  - by rewrite String.eqb_refl.
  - destruct (String.eqb_spec y x) as [->|Hne].
    + symmetry. apply Permutation_cons_append.
    + by rewrite IH.
Qed.

(** X6. With [disableTransitionOnChange], an application that completes has
    appended one style element and scheduled its removal, after which the
    head holds the elements it held before; an application that throws has
    appended the style element and scheduled nothing.  Without the option
    the head and the timers are untouched. *)
Theorem applyTheme_transition_style (props : Props) (t : string) (w : World) :
  t ≠ "" →
  (disableTransitionOnChange props = true →
     match applyTheme props (Some t) w with
     | Done w' =>
         headStyles (document w') = headStyles (document w) ++ [transition_css] ∧
         timers w' = timers w ++ [RemoveHeadStyle transition_css] ∧
         headStyles (document (run_timer (RemoveHeadStyle transition_css) w'))
           ≡ₚ headStyles (document w)
     | Thrown w' =>
         headStyles (document w') = headStyles (document w) ++ [transition_css] ∧
         timers w' = timers w
     end) ∧
  (disableTransitionOnChange props = false →
     headStyles (document (outcome_state (applyTheme props (Some t) w)))
       = headStyles (document w) ∧
     timers (outcome_state (applyTheme props (Some t) w)) = timers w).
Proof.
  intros Ht. apply truthy_true in Ht.
  unfold applyTheme. simpl. rewrite Ht. simpl. split; intros ->; simpl.
  - unfold write_name. simpl.
    destruct (String.eqb (attribute props) "class"); simpl.
    + destruct (classList_remove _ _); simpl; [|done].
      destruct (truthy_opt _); simpl.
      * destruct (classList_add _ _); simpl; [|done].
        destruct (enableColorScheme props); simpl;
          (split; [done|]; split; [done|]; apply remove_first_snoc).
      * destruct (enableColorScheme props); simpl;
          (split; [done|]; split; [done|]; apply remove_first_snoc).
    + destruct (truthy_opt _); simpl; destruct (enableColorScheme props); simpl;
        (split; [done|]; split; [done|]; apply remove_first_snoc).
  - unfold write_name.
    destruct (String.eqb (attribute props) "class"); simpl.
    + destruct (classList_remove _ _); simpl; [|done].
      destruct (truthy_opt _); simpl.
      * destruct (classList_add _ _); simpl; [|done].
        by destruct (enableColorScheme props).
      * by destruct (enableColorScheme props).
    + destruct (truthy_opt _); by destruct (enableColorScheme props).
Qed.

Lemma applyTheme_transition_style_witness :
  match applyTheme transition_props (Some "a b") (world_with_classes []) with
  | Done _ => False
  | Thrown w' =>
      headStyles (document w') = [transition_css] ∧ timers w' = []
  end.
Proof.
  exact (proj1 (applyTheme_transition_style transition_props "a b"
                  (world_with_classes []) ltac:(discriminate)) eq_refl).
Defined.

(** ** [setTheme], [handleStorage] and [handleMediaQuery] *)

(** X7. The last [setTheme] wins on a storage that rejects no write for its
    size (it accepts both writes, or denies every access): a second call
    overwrites the first, in the state and in the storage. *)
Theorem setTheme_last_wins (props : Props) (t1 t2 : string) (a : App) :
  full (storage (world a)) = false →
  setTheme props t2 (setTheme props t1 a) = setTheme props t2 a.
Proof.
  intros Hfull.
  unfold setTheme, setItem, setThemeState, with_storage. simpl.
  destruct (denied (storage (world a))) eqn:Hd; simpl; rewrite ?Hd; simpl; [done|].
  rewrite Hfull. simpl. rewrite ?Hd, ?Hfull. simpl.
  by rewrite insert_insert_eq.
Qed.

Lemma setTheme_last_wins_witness :
  setTheme sample_props "dark" (setTheme sample_props "light-hc" (sample_app [] "light")) =
  setTheme sample_props "dark" (sample_app [] "light").
Proof.
  apply (setTheme_last_wins sample_props "light-hc" "dark" (sample_app [] "light")).
  reflexivity.
Defined.

(** [setTheme] only writes the state cell and the storage: the document,
    the media query and the timers are as before (the document follows in
    the effect). *)
Lemma setTheme_world (props : Props) (t : string) (a : App) :
  document (world (setTheme props t a)) = document (world a) ∧
  media (world (setTheme props t a)) = media (world a) ∧
  timers (world (setTheme props t a)) = timers (world a) ∧
  denied (storage (world (setTheme props t a))) = denied (storage (world a)) ∧
  full (storage (world (setTheme props t a))) = full (storage (world a)).
Proof. unfold setTheme. by destruct (setItem _ _ _) eqn:E; simpl;
  [unfold setItem in E; destruct (_ || _); [done|]; injection E as <-|]. Qed.

(** X8. What [setTheme] stores is what a later mount reads: after [setTheme] of
    a non-empty theme on a working storage, [Theme] starts from that theme;
    after [setTheme] of the empty string it starts from the default theme,
    and the document is untouched by [setTheme] itself. *)
Theorem setTheme_then_mount (props : Props) (t : string) (a : App) :
  denied (storage (world a)) = false →
  full (storage (world a)) = false →
  let w' := world (setTheme props t a) in
  document w' = document (world a) ∧
  (t ≠ "" → theme (initialState false props w') = Some t) ∧
  (t = "" → theme (initialState false props w') = Some (defaultTheme props)).
Proof.
  intros Hd Hf w'. split; [apply setTheme_world|].
  assert (Hi : items (storage w') !! storageKey props = Some t).
  { unfold w', setTheme, setItem. simpl. rewrite Hd, Hf. simpl. apply lookup_insert_eq. }
  assert (Hd' : denied (storage w') = false).
  { unfold w'. by rewrite (proj1 (proj2 (proj2 (proj2 (setTheme_world props t a))))). }
  split.
  - intros Ht. by apply getTheme_stored.
  - intros ->. apply getTheme_missing; [done | by right].
Qed.

Lemma setTheme_then_mount_witness :
  theme (initialState false sample_props
           (world (setTheme sample_props "dark" (sample_app [] "light")))) = Some "dark".
Proof.
  refine (proj1 (proj2 (setTheme_then_mount sample_props "dark"
            (sample_app [] "light") _ _)) _); [reflexivity | reflexivity | discriminate].
Defined.

(** X9. A handled storage event leaves the state and a working storage in
    agreement.  When the storage already holds the event's value (as it
    does for an event of another tab's write) its contents do not change;
    when the key was removed the handler writes it back with the default
    theme. *)
Theorem handleStorage_storage (props : Props) (e : StorageEvent) (a : App) :
  key e = Some (storageKey props) →
  denied (storage (world a)) = false →
  full (storage (world a)) = false →
  let a' := handleStorage props e a in
  theme (state a') = items (storage (world a')) !! storageKey props ∧
  (∀ v, newValue e = Some v → v ≠ "" →
     items (storage (world a)) !! storageKey props = Some v →
     items (storage (world a')) = items (storage (world a))) ∧
  (newValue e = None →
     items (storage (world a')) !! storageKey props = Some (defaultTheme props)).
Proof.
  intros Hk Hd Hf a'. subst a'. unfold handleStorage.
  rewrite bool_decide_eq_true_2 by done. simpl.
  unfold setTheme, setItem. simpl. rewrite Hd, Hf. simpl.
  split; [by rewrite lookup_insert_eq|]. split.
  - intros v -> Hv Hi. simpl. rewrite (proj2 (truthy_true v) Hv).
    by apply insert_id.
  - intros ->. simpl. by rewrite lookup_insert_eq.
Qed.

Lemma handleStorage_storage_witness :
  items (storage (world (handleStorage sample_props
      {| key := Some "theme"; newValue := None |}
      (sample_app [("lang", "en")] "dark")))) !! "theme" = Some "system".
Proof.
  refine (proj2 (proj2 (handleStorage_storage sample_props
            {| key := Some "theme"; newValue := None |}
            (sample_app [("lang", "en")] "dark") _ _ _)) _); reflexivity.
Defined.

(** X10. A change of the media query under an explicit theme (neither [system]
    nor a [system-] name) touches neither the world nor the theme:
    consumers keep the theme as their resolved theme, and see the event's
    light or dark as the system theme when [enableSystem] is on.  Under a
    forced theme the world is untouched whatever the theme. *)
Theorem handleMediaQuery_explicit (props : Props) (e : MediaQueryList) (a : App) :
  (∀ t, theme (state a) = Some t → t ≠ "system" → startsWith t "system-" = false →
     ∃ a', handleMediaQuery props e a = Done a' ∧
       world a' = world a ∧
       ctx_theme (providerValue props (state a')) = Some t ∧
       ctx_resolvedTheme (providerValue props (state a')) = Some t ∧
       ctx_systemTheme (providerValue props (state a')) =
         if enableSystem props
         then Some (if matches e then "dark" else "light") else None) ∧
  (truthy_opt (forcedTheme props) = true ∨ enableSystem props = false →
     ∃ a', handleMediaQuery props e a = Done a' ∧ world a' = world a ∧
           theme (state a') = theme (state a)).
Proof.
  split.
  - intros t Ht Hs Hc. apply String.eqb_neq in Hs.
    exists (setResolvedTheme (getSystemTheme (world a) (Some e)) a). split.
    + unfold handleMediaQuery. rewrite Ht. simpl.
      by rewrite Hc, Hs, !andb_false_r.
    + simpl. rewrite Ht. simpl. by rewrite Hs, Hc, andb_false_r.
  - intros H. unfold handleMediaQuery.
    assert (negb (truthy_opt (forcedTheme props)) && enableSystem props = false) as ->.
    { destruct H as [-> | ->]; [done | apply andb_false_r]. }
    simpl. by eexists.
Qed.

Lemma handleMediaQuery_explicit_witness :
  ∃ a', handleMediaQuery sample_props {| mq_media := MEDIA; matches := true |}
          (sample_app [] "light-hc") = Done a' ∧
        world a' = world (sample_app [] "light-hc") ∧
        ctx_theme (providerValue sample_props (state a')) = Some "light-hc" ∧
        ctx_resolvedTheme (providerValue sample_props (state a')) = Some "light-hc" ∧
        ctx_systemTheme (providerValue sample_props (state a')) = Some "dark".
Proof.
  refine (proj1 (handleMediaQuery_explicit sample_props
            {| mq_media := MEDIA; matches := true |} (sample_app [] "light-hc"))
            "light-hc" _ _ _); [reflexivity | discriminate | reflexivity].
Defined.

(** X11. A change of the media query under the [system] theme (no forced theme,
    [enableSystem] on, a plain attribute name, no value map): the resolved
    theme of the state is the event's light or dark, and the attribute is
    rewritten with the light or dark of the window's query, so the two agree
    when the event reports what the window's query reports. *)
Theorem handleMediaQuery_system (props : Props) (e : MediaQueryList) (a : App) :
  theme (state a) = Some "system" →
  truthy_opt (forcedTheme props) = false →
  enableSystem props = true →
  value props = None →
  plain_attribute (attribute props) = true →
  ∃ a', handleMediaQuery props e a = Done a' ∧
    resolvedTheme (state a') = Some (if matches e then "dark" else "light") ∧
    ctx_resolvedTheme (providerValue props (state a')) =
      Some (if matches e then "dark" else "light") ∧
    attributes (document (world a')) !! attribute props =
      Some (if matches (media (world a)) then "dark" else "light").
Proof.
  intros Ht Hf He Hv Hc. apply plain_attribute_not_class in Hc.
  unfold handleMediaQuery. rewrite Ht, Hf, He. simpl. rewrite andb_false_r. simpl.
  unfold applyTheme, write_name, attr_name, resolve. simpl.
  rewrite He, Hv, Hc. simpl. unfold getSystemTheme. simpl.
  destruct (disableTransitionOnChange props), (enableColorScheme props),
    (matches (media (world a))); simpl;
    (eexists; split; [reflexivity|]; simpl; by rewrite Ht, lookup_insert_eq).
Qed.

Lemma handleMediaQuery_system_witness :
  ∃ a', handleMediaQuery sample_props {| mq_media := MEDIA; matches := false |}
          (sample_app [] "system") = Done a' ∧
    resolvedTheme (state a') = Some "light" ∧
    ctx_resolvedTheme (providerValue sample_props (state a')) = Some "light" ∧
    attributes (document (world a')) !! "data-theme" = Some "light".
Proof.
  refine (handleMediaQuery_system sample_props {| mq_media := MEDIA; matches := false |}
            (sample_app [] "system") _ _ _ _ _);
    [reflexivity | reflexivity | reflexivity | reflexivity | reflexivity].
Defined.

(** ** [providerThemes]: order *)

Lemma Set_fold_fresh (l s : list string) :
  NoDup (s ++ l) → fold_left (λ s x, Set_add x s) l s = s ++ l.
Proof.
  revert s. induction l as [|x l IH]; intros s Hn; simpl.
  - by rewrite app_nil_r.
  - assert (Hx : includes s x = false).
    { destruct (includes s x) eqn:E; [|done]. apply includes_elem_of in E.
      apply NoDup_app in Hn as (_ & Hn & _). destruct (Hn x E). by left. }
    unfold Set_add at 2. rewrite Hx.
    rewrite IH; [by rewrite <- app_assoc | by rewrite <- app_assoc].
Qed.

Lemma Set_add_prefix (x : string) (s : list string) : s `prefix_of` Set_add x s.
Proof.
  unfold Set_add. destruct (includes s x); [done | by apply prefix_app_r].
Qed.

Lemma Set_fold_prefix {A} (f : A → string) (l : list A) (s : list string) :
  s `prefix_of` fold_left (λ s a, Set_add (f a) s) l s.
Proof.
  revert s. induction l as [|a l IH]; intros s; simpl; [done|].
  etrans; [apply (Set_add_prefix (f a))|apply IH].
Qed.

(** X12. The published list keeps the configured order: a configured list
    without duplicates is a prefix of it, and without the extended mode
    the only addition is [system] at the end (when it is not configured
    itself). *)
Theorem providerThemes_order (props : Props) :
  enableSystem props = true →
  NoDup (themes props) →
  themes props `prefix_of` providerThemes props ∧
  (enableMultipleSystemThemes props = false → "system" ∉ themes props →
     providerThemes props = themes props ++ ["system"]).
Proof.
  intros He Hn. unfold providerThemes. rewrite He. simpl.
  assert (Hs : Set_new (themes props) = themes props).
  { unfold Set_new. by rewrite Set_fold_fresh. }
  rewrite Hs. split.
  - destruct (enableMultipleSystemThemes props).
    + etrans; [apply (Set_add_prefix "system")|].
      apply (Set_fold_prefix (λ k, "system" +:+ k)).
    + apply Set_add_prefix.
  - intros -> Hno. unfold Set_add.
    destruct (includes (themes props) "system") eqn:E; [|done].
    by apply includes_elem_of in E.
Qed.

Lemma providerThemes_order_witness :
  providerThemes class_props = themes class_props ++ ["system"].
Proof.
  refine (proj2 (providerThemes_order class_props _ _) _ _).
  - reflexivity.
  - apply NoDup_ListNoDup. repeat constructor; simpl; intuition discriminate.
  - reflexivity.
  - intros H. apply list_elem_of_In in H. simpl in H. intuition discriminate.
Defined.

(** ** Mounting *)

(** X13. After the first effect of a mounted [Theme] (in the browser, with
    [enableSystem], no forced theme, no value map, a plain attribute name
    and a non-empty default theme), the resolved theme consumers see is the
    value of the attribute on the document root. *)
Theorem mount_resolved_on_root (props : Props) (w : World) :
  enableSystem props = true →
  forcedTheme props = None →
  value props = None →
  plain_attribute (attribute props) = true →
  defaultTheme props ≠ "" →
  let st := initialState false props w in
  ∃ r, ctx_resolvedTheme (providerValue props st) = Some r ∧
       attributes (document (world (outcome_state
         (themeEffect props {| state := st; world := w |}))))
         !! attribute props = Some r.
Proof.
  intros He Hf Hv Hc Hd st. apply plain_attribute_not_class in Hc.
  assert (∃ t, getTheme false w (storageKey props) (Some (defaultTheme props)) = Some t
               ∧ truthy t = true) as (t & Hg & Ht).
  { unfold getTheme. destruct (getItem _ _) as [[s|]|]; simpl.
    - destruct (truthy s) eqn:E.
      + exists s. rewrite (or_truthy (Some s) None) by done. by rewrite or_truthy.
      + exists (defaultTheme props). rewrite (or_falsy (Some s) None) by done.
        split; [done | by apply truthy_true].
    - exists (defaultTheme props). split; [done | by apply truthy_true].
    - exists (defaultTheme props). split; [done | by apply truthy_true]. }
  exists (resolve props w t). subst st. unfold initialState, getResolvedTheme.
  rewrite Hg, Ht. simpl. split.
  - unfold resolve. rewrite He.
    destruct (String.eqb t "system"); simpl; [done|].
    by destruct (enableMultipleSystemThemes props && startsWith t "system-").
  - unfold themeEffect. rewrite Hf. simpl.
    unfold applyTheme. simpl. rewrite Ht. simpl.
    unfold write_name, attr_name. rewrite Hv, Hc. simpl.
    assert (Hr : truthy (resolve props w t) = true).
    { unfold resolve, getSystemTheme. rewrite He.
      destruct (String.eqb t "system"); [by destruct (matches (media w))|].
      destruct (enableMultipleSystemThemes props && startsWith t "system-");
        [by destruct (matches (media w)) | done]. }
    rewrite Hr.
    destruct (disableTransitionOnChange props), (enableColorScheme props); simpl;
      by rewrite lookup_insert_eq.
Qed.

Lemma mount_resolved_on_root_witness :
  ∃ r, ctx_resolvedTheme (providerValue sample_props
         (initialState false sample_props (world_of [("theme", "system-hc")] true)))
         = Some r ∧
       attributes (document (world (outcome_state
         (themeEffect sample_props
            {| state := initialState false sample_props
                          (world_of [("theme", "system-hc")] true);
               world := world_of [("theme", "system-hc")] true |}))))
         !! "data-theme" = Some r.
Proof.
  refine (mount_resolved_on_root sample_props (world_of [("theme", "system-hc")] true)
            _ _ _ _ _); [reflexivity | reflexivity | reflexivity | reflexivity | discriminate].
Defined.

(** ** The inline script: edge cases *)

(** X15. The script of a forced theme writes what [applyTheme] writes for it,
    for props whose spliced strings are plain and whose attribute is
    [class] or a plain attribute name, when there is no value map and the
    forced theme is not one [applyTheme] resolves ([system] or a compound
    name under [enableSystem]). *)
Theorem forced_script_agrees_applyTheme (props : Props) (f : string) (w : World) :
  script_plain props = true →
  attribute_ok props = true →
  forcedTheme props = Some f →
  f ≠ "" →
  value props = None →
  enableSystem props = false ∨ (f ≠ "system" ∧ compound_system props f = false) →
  root_theme (document (outcome_state (inline_script props w))) =
  root_theme (document (outcome_state (applyTheme props (Some f) w))).
Proof.
  intros _ _ Hf Hne Hv Hr. apply truthy_true in Hne.
  rewrite root_theme_applyTheme by done.
  assert (resolve props w f = f) as ->.
  { unfold resolve. destruct Hr as [-> | [Hs Hc]]; [done|].
    unfold compound_system in Hc. apply String.eqb_neq in Hs. rewrite Hs.
    destruct (enableSystem props); [|done]. simpl in Hc. by rewrite Hc. }
  unfold attr_name. rewrite Hv.
  unfold inline_script, script, run_script. rewrite Hf. simpl. rewrite Hne.
  destruct (exec_init _ _) as [d|d] eqn:Hi; simpl.
  - pose proof (root_theme_write_quoted props {| var_e := None; var_x := None |}
                  f true d (document w) Hv Hne Hi) as H.
    by destruct (exec_stmts _ _ _ _).
  - by apply (exec_init_thrown _ _ _ (Some f)) in Hi as [-> ->].
Qed.

Lemma forced_script_agrees_applyTheme_witness :
  root_theme (document (outcome_state (inline_script forced_props (world_of [] true)))) =
  root_theme (document (outcome_state (applyTheme forced_props (Some "pink") (world_of [] true)))).
Proof.
  refine (forced_script_agrees_applyTheme forced_props "pink" (world_of [] true) _ _ _ _ _ _);
    [reflexivity | reflexivity | reflexivity | discriminate | reflexivity
    | right; split; [discriminate | reflexivity]].
Defined.

(** X16. With a storage that throws, the script (plain spliced strings, no
    forced theme) ends normally having written no attribute and no colour
    scheme, and at most removed the known classes; the component
    nevertheless starts from the default theme. *)
Theorem script_denied_storage (props : Props) (w : World) :
  script_plain props = true →
  denied (storage w) = true →
  truthy_opt (forcedTheme props) = false →
  ∃ w', inline_script props w = Done w' ∧
    attributes (document w') = attributes (document w) ∧
    colorScheme (document w') = colorScheme (document w) ∧
    (∀ c, c ∈ classList (document w') → c ∈ classList (document w)) ∧
    theme (initialState false props w) = Some (defaultTheme props).
Proof.
  intros _ Hd Hf. unfold inline_script, script, run_script. rewrite Hf.
  assert (Hi : ∀ d, exec_init (init props (attrs props)) (document w) = Done d ∨
                    exec_init (init props (attrs props)) (document w) = Thrown d →
            attributes d = attributes (document w) ∧
            colorScheme d = colorScheme (document w) ∧
            ∀ c, c ∈ classList d → c ∈ classList (document w)).
  { intros d. unfold exec_init, init.
    destruct (String.eqb (attribute props) "class").
    - unfold classList_remove. destruct (forallb _ _).
      + intros [[= <-]|?]; [|done]. simpl. split; [done|]. split; [done|].
        intros c Hc. apply list_elem_of_In, List.filter_In in Hc as [Hc _].
        by apply list_elem_of_In.
      + intros [?|[= <-]]; done.
    - intros [[= <-]|?]; done. }
  assert (Hg : theme (initialState false props w) = Some (defaultTheme props)).
  { unfold initialState, getTheme, getItem. simpl. by rewrite Hd. }
  destruct (enableSystem props); simpl;
    destruct (exec_init _ _) as [d|d] eqn:E;
    (eexists; split; [reflexivity|]); simpl;
    unfold run_body, getItem; rewrite ?Hd; simpl;
    destruct (Hi d) as (? & ? & ?); auto.
Qed.

Lemma script_denied_storage_witness :
  ∃ w', inline_script sample_props broken_world = Done w' ∧
    attributes (document w') = attributes (document broken_world) ∧
    colorScheme (document w') = colorScheme (document broken_world) ∧
    (∀ c, c ∈ classList (document w') → c ∈ classList (document broken_world)) ∧
    theme (initialState false sample_props broken_world) = Some "system".
Proof.
  refine (script_denied_storage sample_props broken_world _ _ _); reflexivity.
Defined.

(** X17. With a plain attribute name, plain spliced strings and a value map
    (that has no key named [x[e]]), the script writes no attribute for a
    stored preference, where [applyTheme] writes the value the map holds for
    it. *)
Theorem script_value_map_attribute (props : Props) (v : ValueMap) (w : World)
    (e n : string) :
  script_plain props = true →
  value props = Some v →
  value_get v "x[e]" = None →
  plain_attribute (attribute props) = true →
  truthy_opt (forcedTheme props) = false →
  denied (storage w) = false →
  items (storage w) !! storageKey props = Some e →
  e ≠ "" → e ≠ "system" →
  value_get v (resolve props w e) = Some n → n ≠ "" →
  attributes (document (outcome_state (inline_script props w))) =
    attributes (document w) ∧
  attributes (document (outcome_state (applyTheme props (Some e) w)))
    !! attribute props = Some n.
Proof.
  intros _ Hv Hx Hc Hf Hd He Hne Hs Hn Hnn.
  apply plain_attribute_not_class in Hc. apply truthy_true in Hne, Hnn. split.
  - unfold inline_script, script, run_script. rewrite Hf.
    assert (Hst : updateDOM_stmts props (stored_name props) true true = []).
    { unfold updateDOM_stmts, stored_name. rewrite Hv, Hx, Hc. simpl.
      by rewrite andb_false_r. }
    assert (Hi : exec_init (init props (attrs props)) (document w) = Done (document w)).
    { unfold exec_init, init. by rewrite Hc. }
    rewrite Hst.
    destruct (enableSystem props); simpl; rewrite Hi; simpl;
      unfold run_body, getItem; rewrite Hd, He; simpl; rewrite Hne; simpl.
    + rewrite bool_decide_eq_false_2 by congruence. simpl.
      by pose proof (root_theme_exec_fallback (fallback props) (Some e) (document w)) as [= _ ->].
    + by pose proof (root_theme_exec_fallback (fallback props) (Some e) (document w)) as [= _ ->].
  - unfold applyTheme. simpl. rewrite Hne. simpl.
    unfold write_name, attr_name. rewrite Hv, Hc, Hn. simpl. rewrite Hnn.
    destruct (disableTransitionOnChange props), (enableColorScheme props); simpl;
      by rewrite lookup_insert_eq.
Qed.

Lemma script_value_map_attribute_witness :
  attributes (document (outcome_state
    (inline_script mapped_props (world_of [("theme", "dark")] false)))) = ∅ ∧
  attributes (document (outcome_state
    (applyTheme mapped_props (Some "dark") (world_of [("theme", "dark")] false))))
    !! "data-theme" = Some "night".
Proof.
  refine (script_value_map_attribute mapped_props
            [("light", "day"); ("dark", "night")]
            (world_of [("theme", "dark")] false) "dark" "night" _ _ _ _ _ _ _ _ _ _ _);
    try reflexivity; discriminate.
Defined.

(** X18. When the browser does not know the media query (its serialization is
    not the query asked for), the script (plain spliced strings, a plain
    attribute name) resolves [system] to [dark] whatever [matches] says. *)
Theorem script_unsupported_media (props : Props) (w : World) :
  script_plain props = true →
  enableSystem props = true →
  truthy_opt (forcedTheme props) = false →
  value props = None →
  plain_attribute (attribute props) = true →
  denied (storage w) = false →
  items (storage w) !! storageKey props = Some "system" →
  mq_media (media w) ≠ MEDIA →
  attributes (document (outcome_state (inline_script props w)))
    !! attribute props = Some "dark".
Proof.
  intros _ He Hf Hv Hc Hd Hs Hm.
  apply plain_attribute_not_class in Hc. apply String.eqb_neq in Hm.
  unfold inline_script, script, run_script. rewrite Hf, He. simpl.
  assert (Hi : exec_init (init props (attrs props)) (document w) = Done (document w)).
  { unfold exec_init, init. by rewrite Hc. }
  rewrite Hi. simpl. unfold run_body, getItem. rewrite Hd, Hs. simpl. rewrite Hm. simpl.
  unfold updateDOM_stmts, init. rewrite Hv, Hc. simpl.
  destruct (enableColorScheme props); simpl;
    pose proof (root_theme_exec_fallback (fallback props) (Some "system")) as H.
  - match goal with |- attributes (exec_fallback _ _ ?d) !! _ = _ =>
      specialize (H d); injection H as _ -> end.
    simpl. by rewrite lookup_insert_eq.
  - match goal with |- attributes (exec_fallback _ _ ?d) !! _ = _ =>
      specialize (H d); injection H as _ -> end.
    simpl. by rewrite lookup_insert_eq.
Qed.

Lemma script_unsupported_media_witness :
  attributes (document (outcome_state (inline_script sample_props old_browser)))
    !! "data-theme" = Some "dark".
Proof.
  refine (script_unsupported_media sample_props old_browser _ _ _ _ _ _ _ _);
    try reflexivity; discriminate.
Defined.

(** X19. With nothing stored and a default theme of [light] or [dark], the
    script writes the default theme and sets the colour scheme to it (plain
    spliced strings, an attribute that is [class] or a plain attribute
    name, no forced theme, no value map, readable storage, valid class
    tokens). *)
Theorem script_default_colorScheme (props : Props) (w : World) :
  script_plain props = true →
  attribute_ok props = true →
  enableColorScheme props = true →
  truthy_opt (forcedTheme props) = false →
  value props = None →
  denied (storage w) = false →
  items (storage w) !! storageKey props = None →
  defaultTheme props = "light" ∨ defaultTheme props = "dark" →
  (attribute props = "class" → forallb valid_token (attrs props) = true) →
  colorScheme (document (outcome_state (inline_script props w)))
    = Some (defaultTheme props) ∧
  root_theme (document (outcome_state (inline_script props w))) =
  root_theme (outcome_state (write_name props (Some (defaultTheme props)) (document w))).
Proof.
  intros _ _ Hcs Hf Hv Hd Hs Hdef Htok.
  assert (Ht : truthy (defaultTheme props) = true) by by destruct Hdef as [-> | ->].
  assert (Hvt : valid_token (defaultTheme props) = true) by by destruct Hdef as [-> | ->].
  assert (Hds : defaultSystem props = false).
  { unfold defaultSystem. by destruct Hdef as [-> | ->]. }
  assert (Hfb : fallback props = FallbackOrDefault (defaultTheme props)).
  { unfold fallback. rewrite Hcs. simpl. by destruct Hdef as [-> | ->]. }
  assert (Hinit : ∃ d, exec_init (init props (attrs props)) (document w) = Done d).
  { unfold exec_init, init, classList_remove.
    destruct (String.eqb_spec (attribute props) "class") as [Hc|Hc]; [|by eexists].
    rewrite (Htok Hc). by eexists. }
  destruct Hinit as [d Hi].
  assert (Hdone : ∃ d', exec_stmts (init props (attrs props))
            {| var_e := None; var_x := None |}
            (updateDOM_stmts props (defaultTheme props) false false) d = Done d').
  { revert Hi. unfold updateDOM_stmts, init, exec_init. rewrite Hv. simpl. rewrite Ht.
    rewrite andb_false_r. simpl.
    destruct (String.eqb (attribute props) "class"); simpl.
    - destruct (classList_remove _ _); [|done]. intros _.
      unfold classList_add. rewrite Hvt. by eexists.
    - intros _. by eexists. }
  destruct Hdone as [d' Hd'].
  pose proof (root_theme_write_quoted props {| var_e := None; var_x := None |}
                (defaultTheme props) false d (document w) Hv Ht Hi) as Hroot.
  rewrite Hd' in Hroot. simpl in Hroot.
  unfold inline_script, script, run_script. rewrite Hf, Hds, Hfb. simpl.
  destruct (enableSystem props); rewrite Hi; simpl;
    unfold run_body, getItem; rewrite Hd, Hs; simpl; rewrite Hd'; simpl;
    (split; [done|]); by rewrite <- Hroot.
Qed.

Lemma script_default_colorScheme_witness :
  colorScheme (document (outcome_state (inline_script transition_props (world_with_classes ["page"]))))
    = Some "light".
Proof.
  refine (proj1 (script_default_colorScheme transition_props (world_with_classes ["page"])
            _ _ _ _ _ _ _ _ _)); try reflexivity.
  - by left.
Defined.

(** ** The effect under a forced theme *)

Lemma applyTheme_document (props : Props) (t : option string) (w1 w2 : World) :
  document w1 = document w2 → media w1 = media w2 →
  document (outcome_state (applyTheme props t w1)) =
  document (outcome_state (applyTheme props t w2)).
Proof.
  intros Hd Hm. unfold applyTheme.
  destruct (truthy_opt t); simpl; [|done].
  assert (Hr : resolve props w1 (default "" t) = resolve props w2 (default "" t)).
  { unfold resolve, getSystemTheme. by rewrite Hm. }
  rewrite Hr.
  destruct (disableTransitionOnChange props); simpl; rewrite Hd;
    by destruct (write_name _ _ _).
Qed.

(** X20. While a theme is forced, [setTheme] changes the state and the storage
    but not what the effect puts on the document: the document after the
    effect is the one the effect gives without the call.  A forced theme
    that is the empty string makes the effect write nothing at all. *)
Theorem forced_theme_wins (props : Props) (f t : string) (a : App) :
  forcedTheme props = Some f →
  document (world (outcome_state (themeEffect props (setTheme props t a)))) =
    document (world (outcome_state (themeEffect props a))) ∧
  theme (state (outcome_state (themeEffect props (setTheme props t a)))) = Some t ∧
  (f = "" → themeEffect props a = Done a).
Proof.
  intros Hf. unfold themeEffect. rewrite Hf.
  destruct (setTheme_world props t a) as (Hd & Hm & _).
  pose proof (applyTheme_document props (Some f) _ _ Hd Hm) as H.
  split; [|split].
  - by destruct (applyTheme props (Some f) (world (setTheme props t a))),
               (applyTheme props (Some f) (world a)).
  - assert (theme (state (setTheme props t a)) = Some t) as <-.
    { unfold setTheme. by destruct (setItem _ _ _). }
    by destruct (applyTheme _ _ _).
  - intros ->. unfold applyTheme. simpl. by destruct a.
Qed.

Lemma forced_theme_wins_witness :
  document (world (outcome_state
    (themeEffect forced_props (setTheme forced_props "dark" (sample_app [] "light"))))) =
  document (world (outcome_state (themeEffect forced_props (sample_app [] "light")))).
Proof.
  refine (proj1 (forced_theme_wins forced_props "pink" "dark" (sample_app [] "light") _)).
  reflexivity.
Defined.

(** ** One provider, one script *)

(** X21. A tree rooted at a [ThemeProvider] renders one state container and one
    inline script, however many providers are nested below; the script is
    the provider's first child, and every consumer in the tree sees the
    root provider's value. *)
Theorem single_provider (isServer : bool) (w : World) (p : ThemeProviderProps)
    (children : list element) :
  let r := render isServer w None (ThemeProvider p children) in
  count_providers r = 1 ∧
  count_scripts r = 1 ∧
  ∃ st rest,
    r = RProvider st (providerValue (destructure p) st)
          (RScript (nonce (destructure p))
             (scriptSrc (destructure p) (attrs (destructure p))) :: rest) ∧
    Forall (λ seen, seen = providerValue (destructure p) st) (seen_contexts r).
Proof.
  intros r. subst r. simpl.
  set (st := initialState isServer (destructure p) w).
  set (v := providerValue (destructure p) st).
  assert (H : Forall (λ e, count_providers (render isServer w (Some v) e) = 0 ∧
                           count_scripts (render isServer w (Some v) e) = 0 ∧
                           Forall (λ seen, seen = v)
                             (seen_contexts (render isServer w (Some v) e))) children).
  { apply Forall_forall. intros e _. apply render_below_provider. }
  split; [|split].
  - f_equal. apply list_sum_zero. rewrite Forall_map, Forall_map.
    eapply Forall_impl; [exact H | by intros ? (? & _)].
  - f_equal. apply list_sum_zero. rewrite Forall_map, Forall_map.
    eapply Forall_impl; [exact H | by intros ? (_ & ? & _)].
  - eexists _, _. split; [reflexivity|].
    apply Forall_concat_all. rewrite Forall_map, Forall_map.
    eapply Forall_impl; [exact H | by intros ? (_ & _ & ?)].
Qed.

